(** * A shallow embedding of the Jira/Xray integration service

    The Go program is a REST facade in front of a Jira backend.  This file
    embeds its three source units

      - [jira/models.go]   the entity model and its JSON field tags,
      - the Jira client    ([Client], [makeRequest], [handleResponse],
                           [ListTestCases], [CreateTestCase], ... and the
                           demo-credential fallbacks),
      - [config.go] and [main.go]   configuration loading and the HTTP handlers,

    and proves the properties the specification states about them.

    Effects are explicit.  The client runs in a state monad over a [World]
    that records every readout of the clock and every request handed to the
    HTTP client with [HTTPClient.Do]; fallible calls return a [Result].  What
    belongs to Go's libraries rather than to the repository (JSON decoding,
    base64, calendar arithmetic, URL validation, the .env loader) is
    collected in one record, [Runtime], over which the client and the
    handlers are parameterised.
    Log output is not modelled. *)

From Stdlib Require Import ZArith String List Bool Lia.
From stdpp Require Import base option list strings gmap.

Local Set Warnings "-register-all".
Local Open Scope string_scope.

(* ------------------------------------------------------------------ *)
(** ** Go values *)

(** A slice is either [nil] or a (possibly empty) sequence; [len] does not
    tell the two apart, the request validator does. *)
Definition slice (A : Type) : Type := option (list A).

Definition elems {A} (s : slice A) : list A := default [] s.
Definition len {A} (s : slice A) : nat := length (elems s).
Definition isNil {A} (s : slice A) : bool :=
  match s with Some _ => false | None => true end.

(** [time.Time], as an instant in seconds since the Unix epoch. *)
Definition Time : Type := Z.

(** The zero value [time.Time{}] : January 1, year 1, 00:00:00 UTC. *)
Definition zeroTime : Time := (-62135596800)%Z.

(** JSON documents: what [encoding/json] writes and reads. *)
Inductive JSON : Type :=
| JNull
| JBool (b : bool)
| JNumber (n : Z)
| JString (s : string)
| JArray (items : list JSON)
| JObject (members : list (string * JSON)).

(** The member names occurring anywhere in a document. *)
Fixpoint member_names (j : JSON) : list string :=
  match j with
  | JObject ms => flat_map (fun kv => let '(k, v) := kv in k :: member_names v) ms
  | JArray l => flat_map member_names l
  | _ => []
  end.

(** The non-empty strings occurring as values anywhere in a document. *)
Fixpoint string_values (j : JSON) : list string :=
  match j with
  | JString s => if String.eqb s "" then [] else [s]
  | JObject ms => flat_map (fun kv => let '(_, v) := kv in string_values v) ms
  | JArray l => flat_map string_values l
  | _ => []
  end.

(** Lookup of a member of an object (first match). *)
Fixpoint assoc {V : Type} (k : string) (ms : list (string * V)) : option V :=
  match ms with
  | [] => None
  | (k', v) :: ms' => if String.eqb k k' then Some v else assoc k ms'
  end.

Definition member (k : string) (j : JSON) : option JSON :=
  match j with
  | JObject ms => assoc k ms
  | _ => None
  end.

(** [strings.HasSuffix] and [strings.TrimSuffix]. *)
Definition HasSuffix (s suffix : string) : bool :=
  let n := String.length s in
  let m := String.length suffix in
  (m <=? n)%nat && String.eqb (substring (n - m) m s) suffix.

Definition TrimSuffix (s suffix : string) : string :=
  if HasSuffix s suffix
  then substring 0 (String.length s - String.length suffix) s
  else s.

(* ------------------------------------------------------------------ *)
(** ** The entity model  (jira/models.go) *)

Module TestCase.
Record t : Type := mk {
  ID : string;
  Key : string;
  Summary : string;            (* binding:"required" *)
  Description : string;
  Status : string;
  Priority : string;
  Labels : slice string;
  Components : slice string;
  TestType : string;
  CreatedDate : Time;
  UpdatedDate : Time;
  Reporter : string;
  Assignee : string;
  CustomFields : option (gmap string JSON)
}.

(** The zero value of the struct. *)
Definition zero : t :=
  mk "" "" "" "" "" "" None None "" zeroTime zeroTime "" "" None.

(** Field assignments [x.F = v] on a copy. *)
Definition set_ID (v : string) (x : t) : t :=
  mk v (Key x) (Summary x) (Description x) (Status x) (Priority x) (Labels x)
     (Components x) (TestType x) (CreatedDate x) (UpdatedDate x) (Reporter x)
     (Assignee x) (CustomFields x).
Definition set_Key (v : string) (x : t) : t :=
  mk (ID x) v (Summary x) (Description x) (Status x) (Priority x) (Labels x)
     (Components x) (TestType x) (CreatedDate x) (UpdatedDate x) (Reporter x)
     (Assignee x) (CustomFields x).
Definition set_Status (v : string) (x : t) : t :=
  mk (ID x) (Key x) (Summary x) (Description x) v (Priority x) (Labels x)
     (Components x) (TestType x) (CreatedDate x) (UpdatedDate x) (Reporter x)
     (Assignee x) (CustomFields x).
Definition set_CreatedDate (v : Time) (x : t) : t :=
  mk (ID x) (Key x) (Summary x) (Description x) (Status x) (Priority x) (Labels x)
     (Components x) (TestType x) v (UpdatedDate x) (Reporter x)
     (Assignee x) (CustomFields x).
Definition set_Reporter (v : string) (x : t) : t :=
  mk (ID x) (Key x) (Summary x) (Description x) (Status x) (Priority x) (Labels x)
     (Components x) (TestType x) (CreatedDate x) (UpdatedDate x) v
     (Assignee x) (CustomFields x).
End TestCase.
Abbreviation TestCase := TestCase.t.

Module TestResult.
Record t : Type := mk {
  TestCaseKey : string;
  Status : string;             (* PASS, FAIL, TODO, EXECUTING *)
  Comment : string;
  ExecutionTime : Z;           (* in milliseconds *)
  ExecutedBy : string;
  ExecutedOn : Time;
  Defects : slice string;      (* defect keys *)
  Evidence : slice string      (* attachment URLs *)
}.
End TestResult.
Abbreviation TestResult := TestResult.t.

Module TestExecution.
Record t : Type := mk {
  ID : string;
  Key : string;
  Summary : string;            (* binding:"required" *)
  Description : string;
  Status : string;
  TestCases : slice string;    (* binding:"required" *)
  ExecutionStatus : string;    (* PASS, FAIL, TODO, EXECUTING *)
  StartDate : Time;
  EndDate : Time;
  ExecutedBy : string;
  Environment : string;
  TestResults : slice TestResult;
  CustomFields : option (gmap string JSON)
}.

Definition zero : t :=
  mk "" "" "" "" "" None "" zeroTime zeroTime "" "" None None.

Definition set_ID (v : string) (x : t) : t :=
  mk v (Key x) (Summary x) (Description x) (Status x) (TestCases x)
     (ExecutionStatus x) (StartDate x) (EndDate x) (ExecutedBy x)
     (Environment x) (TestResults x) (CustomFields x).
Definition set_Key (v : string) (x : t) : t :=
  mk (ID x) v (Summary x) (Description x) (Status x) (TestCases x)
     (ExecutionStatus x) (StartDate x) (EndDate x) (ExecutedBy x)
     (Environment x) (TestResults x) (CustomFields x).
Definition set_Status (v : string) (x : t) : t :=
  mk (ID x) (Key x) (Summary x) (Description x) v (TestCases x)
     (ExecutionStatus x) (StartDate x) (EndDate x) (ExecutedBy x)
     (Environment x) (TestResults x) (CustomFields x).
Definition set_ExecutionStatus (v : string) (x : t) : t :=
  mk (ID x) (Key x) (Summary x) (Description x) (Status x) (TestCases x)
     v (StartDate x) (EndDate x) (ExecutedBy x)
     (Environment x) (TestResults x) (CustomFields x).
Definition set_StartDate (v : Time) (x : t) : t :=
  mk (ID x) (Key x) (Summary x) (Description x) (Status x) (TestCases x)
     (ExecutionStatus x) v (EndDate x) (ExecutedBy x)
     (Environment x) (TestResults x) (CustomFields x).
Definition set_ExecutedBy (v : string) (x : t) : t :=
  mk (ID x) (Key x) (Summary x) (Description x) (Status x) (TestCases x)
     (ExecutionStatus x) (StartDate x) (EndDate x) v
     (Environment x) (TestResults x) (CustomFields x).
End TestExecution.
Abbreviation TestExecution := TestExecution.t.

Module IssueType.
Record t : Type := mk { ID : string; Name : string }.
Definition zero : t := mk "" "".
End IssueType.
Abbreviation IssueType := IssueType.t.

Module Project.
Record t : Type := mk { Key : string; Name : string }.
Definition zero : t := mk "" "".
End Project.
Abbreviation Project := Project.t.

Module Priority.
Record t : Type := mk { ID : string; Name : string }.
Definition zero : t := mk "" "".
End Priority.
Abbreviation Priority := Priority.t.

Module Status.
Record t : Type := mk { ID : string; Name : string }.
Definition zero : t := mk "" "".
End Status.
Abbreviation Status := Status.t.

Module User.
Record t : Type := mk { AccountID : string; EmailAddress : string; DisplayName : string }.
Definition zero : t := mk "" "" "".
End User.
Abbreviation User := User.t.

Module Component.
Record t : Type := mk { ID : string; Name : string }.
End Component.
Abbreviation Component := Component.t.

Module IssueFields.
Record t : Type := mk {
  Summary : string;            (* json:"summary" *)
  Description : string;        (* json:"description,omitempty" *)
  IssueType : IssueType.t;     (* json:"issuetype" *)
  Project : Project.t;         (* json:"project" *)
  Priority : Priority.t;       (* json:"priority,omitempty" *)
  Status : Status.t;           (* json:"status,omitempty" *)
  Reporter : User.t;           (* json:"reporter,omitempty" *)
  Assignee : User.t;           (* json:"assignee,omitempty" *)
  Labels : slice string;       (* json:"labels,omitempty" *)
  Components : slice Component (* json:"components,omitempty" *)
}.
Definition zero : t :=
  mk "" "" IssueType.zero Project.zero Priority.zero Status.zero User.zero User.zero
     None None.
Definition set_Priority (v : Priority.t) (x : t) : t :=
  mk (Summary x) (Description x) (IssueType x) (Project x) v (Status x)
     (Reporter x) (Assignee x) (Labels x) (Components x).
End IssueFields.
Abbreviation IssueFields := IssueFields.t.

Module JiraIssue.
Record t : Type := mk { ID : string; Key : string; Fields : IssueFields }.
Definition zero : t := mk "" "" IssueFields.zero.
End JiraIssue.
Abbreviation JiraIssue := JiraIssue.t.

Module JiraResponse.
Record t : Type := mk {
  Issues : slice JiraIssue;
  StartAt : Z;
  MaxResults : Z;
  Total : Z
}.
Definition zero : t := mk None 0%Z 0%Z 0%Z.
End JiraResponse.
Abbreviation JiraResponse := JiraResponse.t.

Module ErrorResponse.
Record t : Type := mk {
  ErrorMessages : slice string;
  Errors : option (gmap string string)
}.
End ErrorResponse.
Abbreviation ErrorResponse := ErrorResponse.t.

Module CreateIssueRequest.
Record t : Type := mk { Fields : IssueFields }.
End CreateIssueRequest.
Abbreviation CreateIssueRequest := CreateIssueRequest.t.

Module CreateIssueResponse.
Record t : Type := mk { ID : string; Key : string; Self : string }.
Definition zero : t := mk "" "" "".
End CreateIssueResponse.
Abbreviation CreateIssueResponse := CreateIssueResponse.t.

(* ------------------------------------------------------------------ *)
(** ** The wire form of the issue-creation payload

    [json.Marshal] writes the fields of a struct in declaration order, each
    under the name of its [json] tag.  The option [omitempty] leaves a field
    out when its value is an empty string or a slice of length 0 (likewise
    false, 0, a nil pointer or interface, an empty map).  It has no effect on
    a field whose type is a struct: such a field is always written. *)

Definition omitempty_string (name s : string) : list (string * JSON) :=
  if String.eqb s "" then [] else [(name, JString s)].

Definition omitempty_slice {A} (name : string) (enc : A -> JSON) (s : slice A)
  : list (string * JSON) :=
  if (len s =? 0)%nat then [] else [(name, JArray (map enc (elems s)))].

Definition marshal_IssueType (x : IssueType) : JSON :=
  JObject (omitempty_string "id" (IssueType.ID x) ++ [("name", JString (IssueType.Name x))]).

Definition marshal_Project (x : Project) : JSON :=
  JObject ([("key", JString (Project.Key x))] ++ omitempty_string "name" (Project.Name x)).

Definition marshal_Priority (x : Priority) : JSON :=
  JObject (omitempty_string "id" (Priority.ID x) ++ [("name", JString (Priority.Name x))]).

Definition marshal_Status (x : Status) : JSON :=
  JObject (omitempty_string "id" (Status.ID x) ++ [("name", JString (Status.Name x))]).

Definition marshal_User (x : User) : JSON :=
  JObject (omitempty_string "accountId" (User.AccountID x)
           ++ omitempty_string "emailAddress" (User.EmailAddress x)
           ++ omitempty_string "displayName" (User.DisplayName x)).

Definition marshal_Component (x : Component) : JSON :=
  JObject (omitempty_string "id" (Component.ID x) ++ [("name", JString (Component.Name x))]).

Definition marshal_IssueFields (x : IssueFields) : JSON :=
  JObject ([("summary", JString (IssueFields.Summary x))]
           ++ omitempty_string "description" (IssueFields.Description x)
           ++ [("issuetype", marshal_IssueType (IssueFields.IssueType x));
               ("project", marshal_Project (IssueFields.Project x));
               ("priority", marshal_Priority (IssueFields.Priority x));
               ("status", marshal_Status (IssueFields.Status x));
               ("reporter", marshal_User (IssueFields.Reporter x));
               ("assignee", marshal_User (IssueFields.Assignee x))]
           ++ omitempty_slice "labels" JString (IssueFields.Labels x)
           ++ omitempty_slice "components" marshal_Component (IssueFields.Components x)).

Definition marshal_CreateIssueRequest (x : CreateIssueRequest) : JSON :=
  JObject [("fields", marshal_IssueFields (CreateIssueRequest.Fields x))].

(* ------------------------------------------------------------------ *)
(** ** Errors and results *)

Inductive Result (A E : Type) : Type :=
| Ok (a : A)
| Err (e : E).
Arguments Ok {A E} a.
Arguments Err {A E} e.

Definition is_Ok {A E} (r : Result A E) : bool :=
  match r with Ok _ => true | Err _ => false end.

(** One failed field of the request validator: the field, and the tag of the
    rule it broke. *)
Module FieldError.
Record t : Type := mk { Namespace : string; Field : string; Tag : string }.
End FieldError.
Abbreviation FieldError := FieldError.t.

(** Go [error] values, one constructor per way the program builds them. *)
Inductive error : Type :=
| LibraryError (msg : string)               (* an error returned by a library call *)
| Errorf (msg : string)                     (* fmt.Errorf(msg) *)
| Wrapf (msg : string) (cause : error)      (* fmt.Errorf(msg + ": %w", cause) *)
| HTTPStatus (status : Z) (body : string)   (* fmt.Errorf("HTTP %d: %s", status, body) *)
| JiraAPIError (status : Z) (resp : ErrorResponse)
                                            (* fmt.Errorf("Jira API error (HTTP %d): %v, %v", ...) *)
| ValidationErrors (fields : list FieldError).
                                            (* the validator's error: every failed field *)

(* ------------------------------------------------------------------ *)
(** ** HTTP exchange, clock, and the world they live in *)

Module Request.
Record t : Type := mk {
  Method : string;
  URL : string;
  Header : list (string * string);
  Body : option JSON
}.
End Request.
Abbreviation Request := Request.t.

(** A response as the client consumes it: the status code and the outcome of
    reading the body to its end. *)
Module Response.
Record t : Type := mk {
  StatusCode : Z;
  Body : Result string error
}.
End Response.
Abbreviation Response := Response.t.

Record World : Type := mkWorld {
  clock : nat -> Time;        (* what the n-th readout of the clock shows *)
  backend : list Request -> Request -> Result Response error;
                              (* the outcome of HTTPClient.Do on a request, given
                                 those handed over before: the final response,
                                 after any redirect the HTTP client follows on
                                 its own, or the client's error *)
  readouts : nat;             (* readouts of the clock so far *)
  sent : list Request         (* requests handed to HTTPClient.Do, oldest first:
                                 one entry per call; the hops of a redirect the
                                 HTTP client follows are not recorded *)
}.

Definition M (A : Type) : Type := World -> A * World.

#[global] Instance M_ret : MRet M := fun A a w => (a, w).
#[global] Instance M_bind : MBind M :=
  fun A B f m w => let '(a, w') := m w in f a w'.

(** [time.Now()] *)
Definition time_Now : M Time :=
  fun w => (clock w (readouts w),
            mkWorld (clock w) (backend w) (S (readouts w)) (sent w)).

(** [c.HTTPClient.Do(req)].  One call: the request the program built is
    logged in [sent] and the outcome of the call is returned.  The client is
    an [http.Client] with the default redirect policy, so what travels on the
    wire during the call may be more than this one request; [sent] is the log
    of the calls, not of the wire. *)
Definition Do (req : Request) : M (Result Response error) :=
  fun w => (backend w (sent w) req,
            mkWorld (clock w) (backend w) (readouts w) (sent w ++ [req])).

(** Behaviour of library calls the repository relies on. *)
Record Runtime : Type := mkRuntime {
  EncodeToString : string -> string;          (* base64.StdEncoding *)
  AddDate : Time -> Z -> Z -> Z -> Time;      (* t.AddDate(years, months, days) *)
  NewRequest_error : string -> string -> option error;
                                              (* http.NewRequest(method, url, _) *)
  Unmarshal_ErrorResponse : string -> Result ErrorResponse error;
  Unmarshal_JiraResponse : string -> Result JiraResponse error;
  Unmarshal_CreateIssueResponse : string -> Result CreateIssueResponse error;
  Unmarshal_JiraIssue : string -> Result JiraIssue error;
  Decode_TestCase : string -> Result TestCase error;
  Decode_TestExecution : string -> Result TestExecution error;
  godotenv_Load : gmap string string -> gmap string string * option error
}.

(* ------------------------------------------------------------------ *)
(** ** The Jira client *)

Module Client.
Record t : Type := mk {
  BaseURL : string;
  Username : string;
  APIToken : string;
  ProjectKey : string
  (* HTTPClient: an http.Client with a 30 s timeout and no redirect policy
     of its own; a timeout surfaces as an error of [Do]. *)
}.
End Client.
Abbreviation Client := Client.t.

Definition NewClient (baseURL username apiToken projectKey : string) : Client :=
  Client.mk (TrimSuffix baseURL "/") username apiToken projectKey.

(** [isDemoCredentials] *)
Definition isDemoCredentials (c : Client) : bool :=
  String.eqb (Client.Username c) "demo_user"
  || String.eqb (Client.APIToken c) "demo_token_replace_with_actual".

Section JiraClient.
Context (rt : Runtime).

(** [makeRequest], in its two halves: building the request, and handing it
    to the HTTP client.  The only bodies passed are [nil] and a
    [CreateIssueRequest], which [json.Marshal] always encodes, so the
    marshalling failure has no case here. *)
Definition newRequest (c : Client) (method endpoint : string)
    (body : option CreateIssueRequest) : Result Request error :=
  let reqBody := marshal_CreateIssueRequest <$> body in
  let url := Client.BaseURL c +:+ "/rest/api/3/" +:+ endpoint in
  match NewRequest_error rt method url with
  | Some err => Err (Wrapf "failed to create request" err)
  | None =>
      let auth := EncodeToString rt (Client.Username c +:+ ":" +:+ Client.APIToken c) in
      Ok (Request.mk method url
            [("Content-Type", "application/json");
             ("Accept", "application/json");
             ("Authorization", "Basic " +:+ auth)]
            reqBody)
  end.

Definition makeRequest (c : Client) (method endpoint : string)
    (body : option CreateIssueRequest) : M (Result Response error) :=
  match newRequest c method endpoint body with
  | Err err => mret (Err err)
  | Ok req =>
      r ← Do req;
      match r with
      | Err err => mret (Err (Wrapf "failed to make request" err))
      | Ok resp => mret (Ok resp)
      end
  end.

(** [handleResponse].  [target] is the value the caller declared; it is
    returned as it was when the body is empty, and as decoded otherwise. *)
Definition handleResponse {T : Type} (unmarshal : string -> Result T error)
    (resp : Response) (target : T) : Result T error :=
  match Response.Body resp with
  | Err err => Err (Wrapf "failed to read response body" err)
  | Ok body =>
      if (400 <=? Response.StatusCode resp)%Z then
        match Unmarshal_ErrorResponse rt body with
        | Err _ => Err (HTTPStatus (Response.StatusCode resp) body)
        | Ok errorResp => Err (JiraAPIError (Response.StatusCode resp) errorResp)
        end
      else if (0 <? String.length body)%nat then
        match unmarshal body with
        | Err err => Err (Wrapf "failed to unmarshal response" err)
        | Ok v => Ok v
        end
      else Ok target
  end.

(** Mock data for demo purposes. *)
Definition getMockTestCases (c : Client) : M (slice TestCase) :=
  t1 ← time_Now;
  t2 ← time_Now;
  t3 ← time_Now;
  mret (Some
    [ TestCase.mk "10001" "TEST-1" "Login functionality test"
        "Test user login with valid credentials" "To Do" "High"
        (Some ["login"; "authentication"]) None "Manual"
        (AddDate rt t1 0 0 (-7)) zeroTime "Demo User" "" None;
      TestCase.mk "10002" "TEST-2" "Password reset functionality"
        "Test password reset flow" "In Progress" "Medium"
        (Some ["password"; "reset"]) None "Automated"
        (AddDate rt t2 0 0 (-5)) zeroTime "Demo User" "" None;
      TestCase.mk "10003" "TEST-3" "User registration validation"
        "Test user registration with various input validations" "Done" "Medium"
        (Some ["registration"; "validation"]) None "Manual"
        (AddDate rt t3 0 0 (-3)) zeroTime "Demo User" "" None ]).

Definition createMockTestCase (c : Client) (tc : TestCase) : M TestCase :=
  let mockTC := tc in
  let mockTC := TestCase.set_ID "10004" mockTC in
  let mockTC := TestCase.set_Key "TEST-4" mockTC in
  let mockTC := TestCase.set_Status "To Do" mockTC in
  now ← time_Now;
  let mockTC := TestCase.set_CreatedDate now mockTC in
  let mockTC := TestCase.set_Reporter "Demo User" mockTC in
  mret mockTC.

Definition createMockTestExecution (c : Client) (te : TestExecution) : M TestExecution :=
  let mockTE := te in
  let mockTE := TestExecution.set_ID "10005" mockTE in
  let mockTE := TestExecution.set_Key "EXEC-1" mockTE in
  let mockTE := TestExecution.set_Status "To Do" mockTE in
  let mockTE := TestExecution.set_ExecutionStatus "TODO" mockTE in
  now ← time_Now;
  let mockTE := TestExecution.set_StartDate now mockTE in
  let mockTE := TestExecution.set_ExecutedBy "Demo User" mockTE in
  mret mockTE.

Definition getMockTestExecution (c : Client) (key : string) : M TestExecution :=
  t1 ← time_Now;
  t2 ← time_Now;
  t3 ← time_Now;
  mret (TestExecution.mk "10005" key "Demo Test Execution"
          "This is a demo test execution" "In Progress"
          (Some ["TEST-1"; "TEST-2"]) "EXECUTING"
          (AddDate rt t1 0 0 (-1)) zeroTime "Demo User" "QA"
          (Some
             [ TestResult.mk "TEST-1" "PASS" "Test passed successfully" 5000
                 "Demo User" t2 None None;
               TestResult.mk "TEST-2" "FAIL" "Test failed due to timeout" 10000
                 "Demo User" t3 (Some ["BUG-123"]) None ])
          None).

(** The conversion of one Jira issue in the loop of [ListTestCases]. *)
Definition issueToTestCase (issue : JiraIssue) : TestCase :=
  let f := JiraIssue.Fields issue in
  TestCase.mk (JiraIssue.ID issue) (JiraIssue.Key issue)
    (IssueFields.Summary f) (IssueFields.Description f)
    (Status.Name (IssueFields.Status f))
    (Priority.Name (IssueFields.Priority f))
    (IssueFields.Labels f) None "" zeroTime zeroTime
    (User.DisplayName (IssueFields.Reporter f))
    (User.DisplayName (IssueFields.Assignee f))
    None.

(** The endpoint [ListTestCases] queries. *)
Definition searchEndpoint (c : Client) : string :=
  let jql := "project = " +:+ Client.ProjectKey c +:+ " AND issuetype = Test" in
  "search?jql=" +:+ jql +:+ "&maxResults=100".

(** [ListTestCases] *)
Definition ListTestCases (c : Client) : M (Result (slice TestCase) error) :=
  let endpoint := searchEndpoint c in
  r ← makeRequest c "GET" endpoint None;
  match r with
  | Err err => mret (Err (Wrapf "failed to fetch test cases" err))
  | Ok resp =>
      match handleResponse (Unmarshal_JiraResponse rt) resp JiraResponse.zero with
      | Err err =>
          if isDemoCredentials c then
            mock ← getMockTestCases c;
            mret (Ok mock)
          else mret (Err err)
      | Ok jiraResp =>
          mret (Ok (Some (map issueToTestCase (elems (JiraResponse.Issues jiraResp)))))
      end
  end.

(** The request [CreateTestCase] builds before sending it. *)
Definition testCaseCreateReq (c : Client) (tc : TestCase) : CreateIssueRequest :=
  let createReq :=
    CreateIssueRequest.mk
      (IssueFields.mk (TestCase.Summary tc) (TestCase.Description tc)
         (IssueType.mk "" "Test") (Project.mk (Client.ProjectKey c) "")
         Priority.zero Status.zero User.zero User.zero
         (TestCase.Labels tc) None) in
  if negb (String.eqb (TestCase.Priority tc) "") then
    CreateIssueRequest.mk
      (IssueFields.set_Priority (Priority.mk "" (TestCase.Priority tc))
         (CreateIssueRequest.Fields createReq))
  else createReq.

(** [CreateTestCase] *)
Definition CreateTestCase (c : Client) (tc : TestCase) : M (Result TestCase error) :=
  if isDemoCredentials c then
    mock ← createMockTestCase c tc;
    mret (Ok mock)
  else
    let createReq := testCaseCreateReq c tc in
    r ← makeRequest c "POST" "issue" (Some createReq);
    match r with
    | Err err => mret (Err (Wrapf "failed to create test case" err))
    | Ok resp =>
        match handleResponse (Unmarshal_CreateIssueResponse rt) resp
                CreateIssueResponse.zero with
        | Err err => mret (Err err)
        | Ok createResp =>
            let createdTC := tc in
            let createdTC := TestCase.set_ID (CreateIssueResponse.ID createResp) createdTC in
            let createdTC := TestCase.set_Key (CreateIssueResponse.Key createResp) createdTC in
            let createdTC := TestCase.set_Status "To Do" createdTC in
            now ← time_Now;
            let createdTC := TestCase.set_CreatedDate now createdTC in
            mret (Ok createdTC)
        end
    end.

(** The request [CreateTestExecution] builds before sending it. *)
Definition testExecutionCreateReq (c : Client) (te : TestExecution) : CreateIssueRequest :=
  CreateIssueRequest.mk
    (IssueFields.mk (TestExecution.Summary te) (TestExecution.Description te)
       (IssueType.mk "" "Test Execution") (Project.mk (Client.ProjectKey c) "")
       Priority.zero Status.zero User.zero User.zero None None).

(** [CreateTestExecution] *)
Definition CreateTestExecution (c : Client) (te : TestExecution)
  : M (Result TestExecution error) :=
  if isDemoCredentials c then
    mock ← createMockTestExecution c te;
    mret (Ok mock)
  else
    let createReq := testExecutionCreateReq c te in
    r ← makeRequest c "POST" "issue" (Some createReq);
    match r with
    | Err err => mret (Err (Wrapf "failed to create test execution" err))
    | Ok resp =>
        match handleResponse (Unmarshal_CreateIssueResponse rt) resp
                CreateIssueResponse.zero with
        | Err err => mret (Err err)
        | Ok createResp =>
            let createdTE := te in
            let createdTE := TestExecution.set_ID (CreateIssueResponse.ID createResp) createdTE in
            let createdTE := TestExecution.set_Key (CreateIssueResponse.Key createResp) createdTE in
            let createdTE := TestExecution.set_Status "To Do" createdTE in
            let createdTE := TestExecution.set_ExecutionStatus "TODO" createdTE in
            now ← time_Now;
            let createdTE := TestExecution.set_StartDate now createdTE in
            mret (Ok createdTE)
        end
    end.

(** [GetTestExecution] *)
Definition GetTestExecution (c : Client) (key : string) : M (Result TestExecution error) :=
  if isDemoCredentials c then
    mock ← getMockTestExecution c key;
    mret (Ok mock)
  else
    let endpoint := "issue/" +:+ key in
    r ← makeRequest c "GET" endpoint None;
    match r with
    | Err err => mret (Err (Wrapf "failed to fetch test execution" err))
    | Ok resp =>
        match handleResponse (Unmarshal_JiraIssue rt) resp JiraIssue.zero with
        | Err err => mret (Err err)
        | Ok issue =>
            let f := JiraIssue.Fields issue in
            mret (Ok (TestExecution.mk (JiraIssue.ID issue) (JiraIssue.Key issue)
                        (IssueFields.Summary f) (IssueFields.Description f)
                        (Status.Name (IssueFields.Status f))
                        None "" zeroTime zeroTime "" "" None None))
        end
    end.

End JiraClient.

(* ------------------------------------------------------------------ *)
(** ** Configuration  (config.go) *)

Module Config.
Record t : Type := mk {
  JiraBaseURL : string;
  JiraUsername : string;
  JiraAPIToken : string;
  JiraProjectKey : string;
  Port : string
}.
End Config.
Abbreviation Config := Config.t.

(** [os.Getenv]: the value of the variable, empty when it is not set. *)
Definition Getenv (env : gmap string string) (key : string) : string :=
  default "" (env !! key).

(** [getEnvOrDefault] *)
Definition getEnvOrDefault (env : gmap string string) (key defaultValue : string) : string :=
  let value := Getenv env key in
  if negb (String.eqb value "") then value else defaultValue.

(** [LoadConfig], on the process environment [env0]: first the .env loader,
    which may add variables to the environment and whose own failure is only
    logged, then the reading and checking of the variables. *)
Definition configFromEnv (env : gmap string string) : Result Config error :=
  let config :=
    Config.mk (getEnvOrDefault env "JIRA_BASE_URL" "")
              (getEnvOrDefault env "JIRA_USERNAME" "")
              (getEnvOrDefault env "JIRA_API_TOKEN" "")
              (getEnvOrDefault env "JIRA_PROJECT_KEY" "")
              (getEnvOrDefault env "PORT" "8080") in
  if String.eqb (Config.JiraBaseURL config) "" then
    Err (Errorf "JIRA_BASE_URL is required")
  else if String.eqb (Config.JiraUsername config) "" then
    Err (Errorf "JIRA_USERNAME is required")
  else if String.eqb (Config.JiraAPIToken config) "" then
    Err (Errorf "JIRA_API_TOKEN is required")
  else if String.eqb (Config.JiraProjectKey config) "" then
    Err (Errorf "JIRA_PROJECT_KEY is required")
  else Ok config.

Definition LoadConfig (rt : Runtime) (env0 : gmap string string)
  : Result Config error * gmap string string :=
  let '(env, _) := godotenv_Load rt env0 in
  (configFromEnv env, env).

(** [ValidateConfig].  It only writes to the log; it is modelled as the
    lines it writes, in order. *)
Definition ValidateConfig (c : Config) : list string :=
  (if String.eqb (Config.JiraUsername c) "demo_user"
      || String.eqb (Config.JiraAPIToken c) "demo_token_replace_with_actual"
   then [ "⚠️  WARNING: You are using demo credentials!";
          "⚠️  Please copy .env.sample to .env and update with your actual Jira credentials";
          "⚠️  The application will not work with real Jira integration until you provide valid credentials" ]
   else [])
  ++ [ "✅ Configuration loaded successfully";
       "   Jira Base URL: " +:+ Config.JiraBaseURL c;
       "   Jira Project Key: " +:+ Config.JiraProjectKey c;
       "   Server Port: " +:+ Config.Port c ].

(** The client [main] builds from the loaded configuration. *)
Definition mainClient (config : Config) : Client :=
  NewClient (Config.JiraBaseURL config) (Config.JiraUsername config)
            (Config.JiraAPIToken config) (Config.JiraProjectKey config).

(* ------------------------------------------------------------------ *)
(** ** HTTP handlers  (main.go) *)

(** The values the handlers put into a [gin.H], and [gin.H] itself: a map
    from member names to such values, kept as the list of its entries. *)
Inductive any : Type :=
| AString (s : string)
| ABool (b : bool)
| AInt (n : Z)
| AStrings (l : list string)
| AMap (members : list (string * any))          (* a nested gin.H *)
| AMaps (l : list (list (string * any)))        (* []gin.H *)
| AErrorText (e : error)                        (* err.Error() *)
| ATestCase (tc : TestCase)
| ATestCases (tcs : slice TestCase)
| ATestExecution (te : TestExecution).

Abbreviation gin_H := (list (string * any)).

(** What a handler writes with [c.JSON(code, obj)]. *)
Module Reply.
Record t : Type := mk { Code : Z; Obj : gin_H }.
End Reply.
Abbreviation Reply := Reply.t.

Definition StatusOK : Z := 200.
Definition StatusCreated : Z := 201.
Definition StatusBadRequest : Z := 400.
Definition StatusInternalServerError : Z := 500.

(** The part of [gin.Context] the handlers read. *)
Module Context.
Record t : Type := mk {
  Params : list (string * string);   (* path parameters *)
  Body : string                      (* the request body *)
}.
Definition Param (c : t) (name : string) : string :=
  default "" (assoc name (Params c)).
End Context.

(** The [binding] tags of the entity model, as gin's validator applies them:
    [required] rejects the zero value of a string field and a nil slice. *)
Definition validate_TestCase (tc : TestCase) : list FieldError :=
  if String.eqb (TestCase.Summary tc) ""
  then [FieldError.mk "TestCase.Summary" "Summary" "required"]
  else [].

Definition validate_TestExecution (te : TestExecution) : list FieldError :=
  (if String.eqb (TestExecution.Summary te) ""
   then [FieldError.mk "TestExecution.Summary" "Summary" "required"]
   else [])
  ++
  (if isNil (TestExecution.TestCases te)
   then [FieldError.mk "TestExecution.TestCases" "TestCases" "required"]
   else []).

Section Handlers.
Context (rt : Runtime).
Context (config : Config) (jiraClient : Client).

(** [c.ShouldBindJSON(&obj)]: decode the body, then validate the struct. *)
Definition ShouldBindJSON {T : Type} (decode : string -> Result T error)
    (validate : T -> list FieldError) (c : Context.t) : Result T error :=
  match decode (Context.Body c) with
  | Err err => Err err
  | Ok obj =>
      match validate obj with
      | [] => Ok obj
      | fes => Err (ValidationErrors fes)
      end
  end.

Definition healthCheck (c : Context.t) : M Reply :=
  mret (Reply.mk StatusOK
    [ ("status", AString "healthy");
      ("timestamp",
         AMap [("unix", AMap [("seconds", AMap [("value", AString "current_time")])])]);
      ("jira",
         AMap [ ("base_url", AString (Config.JiraBaseURL config));
                ("project_key", AString (Config.JiraProjectKey config));
                ("demo_mode", ABool (String.eqb (Config.JiraUsername config) "demo_user")) ]) ]).

Definition getAPIInfo (c : Context.t) : M Reply :=
  mret (Reply.mk StatusOK
    [ ("name", AString "Jira Xray-like Integration API");
      ("version", AString "1.0.0");
      ("description", AString "A Go application for test management with Jira integration");
      ("endpoints",
         AMap [ ("GET /api/health", AString "Health check");
                ("GET /api/info", AString "API information");
                ("GET /api/testcases", AString "List all test cases");
                ("POST /api/testcases", AString "Create a new test case");
                ("GET /api/testcases/:key", AString "Get a specific test case");
                ("GET /api/testexecutions", AString "List all test executions");
                ("POST /api/testexecutions", AString "Create a new test execution");
                ("GET /api/testexecutions/:key", AString "Get a specific test execution") ]);
      ("example_requests",
         AMap [ ("create_test_case",
                   AMap [ ("method", AString "POST");
                          ("url", AString "/api/testcases");
                          ("body",
                             AMap [ ("summary", AString "Sample Test Case");
                                    ("description", AString "This is a sample test case description");
                                    ("priority", AString "High");
                                    ("labels", AStrings ["api"; "integration"]);
                                    ("testType", AString "Manual") ]) ]);
                ("create_test_execution",
                   AMap [ ("method", AString "POST");
                          ("url", AString "/api/testexecutions");
                          ("body",
                             AMap [ ("summary", AString "Sample Test Execution");
                                    ("description", AString "This is a sample test execution");
                                    ("testCases", AStrings ["TEST-1"; "TEST-2"]);
                                    ("environment", AString "QA") ]) ]) ]);
      ("configuration",
         AMap [ ("jira_base_url", AString (Config.JiraBaseURL config));
                ("project_key", AString (Config.JiraProjectKey config));
                ("demo_mode", ABool (String.eqb (Config.JiraUsername config) "demo_user")) ]) ]).

Definition getTestCases (c : Context.t) : M Reply :=
  r ← ListTestCases rt jiraClient;
  match r with
  | Err err =>
      mret (Reply.mk StatusInternalServerError
              [ ("error", AString "Failed to fetch test cases");
                ("details", AErrorText err) ])
  | Ok testCases =>
      mret (Reply.mk StatusOK
              [ ("testCases", ATestCases testCases);
                ("count", AInt (Z.of_nat (len testCases)));
                ("message", AString "Test cases retrieved successfully") ])
  end.

Definition createTestCase (c : Context.t) : M Reply :=
  match ShouldBindJSON (Decode_TestCase rt) validate_TestCase c with
  | Err err =>
      mret (Reply.mk StatusBadRequest
              [ ("error", AString "Invalid request body");
                ("details", AErrorText err) ])
  | Ok testCase =>
      if String.eqb (TestCase.Summary testCase) "" then
        mret (Reply.mk StatusBadRequest [ ("error", AString "Summary is required") ])
      else
        r ← CreateTestCase rt jiraClient testCase;
        match r with
        | Err err =>
            mret (Reply.mk StatusInternalServerError
                    [ ("error", AString "Failed to create test case");
                      ("details", AErrorText err) ])
        | Ok createdTestCase =>
            mret (Reply.mk StatusCreated
                    [ ("testCase", ATestCase createdTestCase);
                      ("message", AString "Test case created successfully") ])
        end
  end.

Definition getTestCase (c : Context.t) : M Reply :=
  let key := Context.Param c "key" in
  mret (Reply.mk StatusOK
    [ ("testCase",
         AMap [ ("id", AString "10001");
                ("key", AString key);
                ("summary", AString "Sample Test Case");
                ("description", AString "This is a sample test case");
                ("status", AString "To Do");
                ("priority", AString "Medium") ]);
      ("message", AString "Test case retrieved successfully") ]).

Definition getTestExecutions (c : Context.t) : M Reply :=
  let mockExecutions : list gin_H :=
    [ [ ("id", AString "10005");
        ("key", AString "EXEC-1");
        ("summary", AString "Sprint 1 Test Execution");
        ("status", AString "In Progress");
        ("executionStatus", AString "EXECUTING");
        ("testCases", AStrings ["TEST-1"; "TEST-2"]);
        ("environment", AString "QA") ];
      [ ("id", AString "10006");
        ("key", AString "EXEC-2");
        ("summary", AString "Regression Test Execution");
        ("status", AString "Done");
        ("executionStatus", AString "PASS");
        ("testCases", AStrings ["TEST-1"; "TEST-2"; "TEST-3"]);
        ("environment", AString "Staging") ] ] in
  mret (Reply.mk StatusOK
    [ ("testExecutions", AMaps mockExecutions);
      ("count", AInt (Z.of_nat (length mockExecutions)));
      ("message", AString "Test executions retrieved successfully") ]).

Definition createTestExecution (c : Context.t) : M Reply :=
  match ShouldBindJSON (Decode_TestExecution rt) validate_TestExecution c with
  | Err err =>
      mret (Reply.mk StatusBadRequest
              [ ("error", AString "Invalid request body");
                ("details", AErrorText err) ])
  | Ok testExecution =>
      if String.eqb (TestExecution.Summary testExecution) "" then
        mret (Reply.mk StatusBadRequest [ ("error", AString "Summary is required") ])
      else if (len (TestExecution.TestCases testExecution) =? 0)%nat then
        mret (Reply.mk StatusBadRequest
                [ ("error", AString "At least one test case is required") ])
      else
        r ← CreateTestExecution rt jiraClient testExecution;
        match r with
        | Err err =>
            mret (Reply.mk StatusInternalServerError
                    [ ("error", AString "Failed to create test execution");
                      ("details", AErrorText err) ])
        | Ok createdTestExecution =>
            mret (Reply.mk StatusCreated
                    [ ("testExecution", ATestExecution createdTestExecution);
                      ("message", AString "Test execution created successfully") ])
        end
  end.

Definition getTestExecution (c : Context.t) : M Reply :=
  let key := Context.Param c "key" in
  r ← GetTestExecution rt jiraClient key;
  match r with
  | Err err =>
      mret (Reply.mk StatusInternalServerError
              [ ("error", AString "Failed to fetch test execution");
                ("details", AErrorText err) ])
  | Ok testExecution =>
      mret (Reply.mk StatusOK
              [ ("testExecution", ATestExecution testExecution);
                ("message", AString "Test execution retrieved successfully") ])
  end.

End Handlers.

(* ------------------------------------------------------------------ *)
(** ** Notions used to state the properties *)

(** The entity the demo path would return if it overwrote id, key, status and
    reporter and nothing else. *)
Definition overwrite_id_key_status_reporter (tc : TestCase) : TestCase :=
  TestCase.mk "10004" "TEST-4" (TestCase.Summary tc) (TestCase.Description tc)
    "To Do" (TestCase.Priority tc) (TestCase.Labels tc) (TestCase.Components tc)
    (TestCase.TestType tc) (TestCase.CreatedDate tc) (TestCase.UpdatedDate tc)
    "Demo User" (TestCase.Assignee tc) (TestCase.CustomFields tc).

(** A response that yields no value: its body could not be read, its status
    is 400 or above, or its body is not empty and does not decode. *)
Definition failed_response {T : Type} (unmarshal : string -> Result T error)
    (resp : Response) : bool :=
  match Response.Body resp with
  | Err _ => true
  | Ok body =>
      (400 <=? Response.StatusCode resp)%Z
      || ((0 <? String.length body)%nat && negb (is_Ok (unmarshal body)))
  end.

(** The value found in a reply object along a path of member names. *)
Fixpoint dig (path : list string) (v : any) : option any :=
  match path with
  | [] => Some v
  | k :: path' =>
      match v with
      | AMap ms =>
          match assoc k ms with
          | Some v' => dig path' v'
          | None => None
          end
      | _ => None
      end
  end.

(** A reply object that says the summary is required: in the handler's own
    words, or as the validator's report that field Summary broke the rule
    [required]. *)
Definition says_summary_required (obj : gin_H) : Prop :=
  assoc "error" obj = Some (AString "Summary is required") \/
  exists fes,
    assoc "details" obj = Some (AErrorText (ValidationErrors fes)) /\
    In (FieldError.mk "TestCase.Summary" "Summary" "required") fes.

(** A request as the client builds them for [c]: addressed below the REST
    root of the client's base URL, announcing and accepting JSON, and carrying
    the basic-authentication header made of the client's user name and token. *)
Definition well_formed (rt : Runtime) (c : Client) (req : Request) : Prop :=
  (exists endpoint,
      Request.URL req = Client.BaseURL c +:+ "/rest/api/3/" +:+ endpoint) /\
  Request.Header req =
    [ ("Content-Type", "application/json");
      ("Accept", "application/json");
      ("Authorization",
       "Basic " +:+ EncodeToString rt (Client.Username c +:+ ":" +:+ Client.APIToken c)) ] /\
  (Request.Body req = None <-> Request.Method req = "GET").

(** World [w'] is world [w] after the requests [new] were handed to the HTTP
    client, one call of [HTTPClient.Do] each, and nothing else happened to
    it. *)
Definition extends_by (w w' : World) (new : list Request) : Prop :=
  clock w' = clock w /\
  backend w' = backend w /\
  sent w' = (sent w ++ new)%list /\
  readouts w <= readouts w'.

(** The error [handleResponse] makes of a response with status 400 or above:
    the backend's error messages when the body decodes as an error response,
    and the raw body otherwise. *)
Definition status_error (rt : Runtime) (status : Z) (body : string) : error :=
  match Unmarshal_ErrorResponse rt body with
  | Ok errorResp => JiraAPIError status errorResp
  | Err _ => HTTPStatus status body
  end.

(** The three canned test cases of the demo fallback, with the given created
    dates. *)
Definition canned_test_cases (created1 created2 created3 : Time) : slice TestCase :=
  Some
    [ TestCase.mk "10001" "TEST-1" "Login functionality test"
        "Test user login with valid credentials" "To Do" "High"
        (Some ["login"; "authentication"]) None "Manual" created1 zeroTime
        "Demo User" "" None;
      TestCase.mk "10002" "TEST-2" "Password reset functionality"
        "Test password reset flow" "In Progress" "Medium"
        (Some ["password"; "reset"]) None "Automated" created2 zeroTime
        "Demo User" "" None;
      TestCase.mk "10003" "TEST-3" "User registration validation"
        "Test user registration with various input validations" "Done" "Medium"
        (Some ["registration"; "validation"]) None "Manual" created3 zeroTime
        "Demo User" "" None ].

(** The test case mapped from a backend issue: id, key, summary and
    description copied, status and priority from the names of the nested
    status and priority, reporter and assignee from the display names of the
    nested users, labels verbatim; nothing else is filled in. *)
Definition test_case_of_issue (issue : JiraIssue) : TestCase :=
  TestCase.mk (JiraIssue.ID issue) (JiraIssue.Key issue)
    (IssueFields.Summary (JiraIssue.Fields issue))
    (IssueFields.Description (JiraIssue.Fields issue))
    (Status.Name (IssueFields.Status (JiraIssue.Fields issue)))
    (Priority.Name (IssueFields.Priority (JiraIssue.Fields issue)))
    (IssueFields.Labels (JiraIssue.Fields issue))
    None "" zeroTime zeroTime
    (User.DisplayName (IssueFields.Reporter (JiraIssue.Fields issue)))
    (User.DisplayName (IssueFields.Assignee (JiraIssue.Fields issue)))
    None.

(** A variable the environment does not define, or defines as the empty
    string. *)
Definition unset_or_empty (env : gmap string string) (key : string) : Prop :=
  env !! key = None \/ env !! key = Some "".

(* ------------------------------------------------------------------ *)
(** ** Fixtures for the examples

    A runtime with a UTC calendar restricted to day offsets, decoders that
    accept the empty JSON object (and, for executions, one body with an empty
    list of test cases), and no .env file; clients with and without demo
    credentials; worlds whose clock advances by one second per readout. *)

(** The text of a JSON string literal. *)
Definition quoted (s : string) : string :=
  let dquote := String (Ascii.Ascii false true false false false true false false) "" in
  dquote +:+ s +:+ dquote.

(** A request body naming a summary and an empty list of test cases, and the
    execution it decodes to. *)
Definition emptySprintBody : string :=
  "{" +:+ quoted "summary" +:+ ":" +:+ quoted "Sprint 1" +:+ ","
      +:+ quoted "testCases" +:+ ":[]}".

Definition emptySprint : TestExecution :=
  TestExecution.mk "" "" "Sprint 1" "" "" (Some []) "" zeroTime zeroTime "" "" None None.

Definition exampleRuntime : Runtime :=
  mkRuntime
    (fun s => s)
    (fun t _ _ days => (t + 86400 * days)%Z)
    (fun _ _ => None)
    (fun _ => Err (LibraryError "invalid character"))
    (fun body => if String.eqb body "{}" then Ok JiraResponse.zero
                 else Err (LibraryError "invalid character"))
    (fun body => if String.eqb body "{}" then Ok CreateIssueResponse.zero
                 else Err (LibraryError "invalid character"))
    (fun body => if String.eqb body "{}" then Ok JiraIssue.zero
                 else Err (LibraryError "invalid character"))
    (fun body => if String.eqb body "{}" then Ok TestCase.zero
                 else Err (LibraryError "invalid character"))
    (fun body => if String.eqb body "{}" then Ok TestExecution.zero
                 else if String.eqb body emptySprintBody then Ok emptySprint
                 else Err (LibraryError "invalid character"))
    (fun env => (env, Some (LibraryError "open .env: no such file or directory"))).

Definition demoClient : Client :=
  NewClient "https://jira.example.com/" "demo_user" "demo_token_replace_with_actual" "PROJ".

Definition realClient : Client :=
  NewClient "https://jira.example.com/" "alice@example.com" "s3cret" "PROJ".

(** A backend that cannot be reached, and one that answers every request
    with the given status and body. *)
Definition unreachable : list Request -> Request -> Result Response error :=
  fun _ _ => Err (LibraryError "dial tcp: connection refused").

Definition answering (status : Z) (body : string)
  : list Request -> Request -> Result Response error :=
  fun _ _ => Ok (Response.mk status (Ok body)).

Definition worldAt (t0 : Time) (b : list Request -> Request -> Result Response error) : World :=
  mkWorld (fun n => (t0 + Z.of_nat n)%Z) b 0 [].

Definition loginTest : TestCase :=
  TestCase.mk "" "" "Login works" "Valid credentials open the dashboard" "" "High"
    (Some ["login"]) None "Manual" zeroTime zeroTime "" "" None.

Definition sprintRun : TestExecution :=
  TestExecution.mk "" "" "Sprint 1" "" "" (Some ["TEST-1"; "TEST-2"]) ""
    zeroTime zeroTime "" "QA" None None.

(** A test case submitted without a priority. *)
Definition untriagedTest : TestCase :=
  TestCase.mk "" "" "Logout works" "" "" "" None None "" zeroTime zeroTime "" "" None.

(** A configuration whose user name is a real one and whose API token is the
    placeholder of the sample environment file. *)
Definition tokenOnlyConfig : Config :=
  Config.mk "https://jira.example.com" "alice@example.com"
    "demo_token_replace_with_actual" "PROJ" "8080".

(** Process environments for the examples: a complete one, and the same with
    the base URL, respectively the port, set to the empty string. *)
Definition completeEnv : gmap string string :=
  <["JIRA_BASE_URL" := "https://jira.example.com"]>
    (<["JIRA_USERNAME" := "alice@example.com"]>
       (<["JIRA_API_TOKEN" := "s3cret"]>
          (<["JIRA_PROJECT_KEY" := "PROJ"]> ∅))).

Definition emptyURLEnv : gmap string string := <["JIRA_BASE_URL" := ""]> completeEnv.

Definition emptyPortEnv : gmap string string := <["PORT" := ""]> completeEnv.

(** Request bodies of the two POST scenarios, and a runtime whose decoders
    read them. *)
Definition loginBody : string :=
  "{" +:+ quoted "summary" +:+ ":" +:+ quoted "Login works" +:+ ","
      +:+ quoted "priority" +:+ ":" +:+ quoted "High" +:+ "}".

Definition sprintBody : string :=
  "{" +:+ quoted "summary" +:+ ":" +:+ quoted "Sprint 1" +:+ ","
      +:+ quoted "testCases" +:+ ":[" +:+ quoted "TEST-1" +:+ "," +:+ quoted "TEST-2" +:+ "],"
      +:+ quoted "environment" +:+ ":" +:+ quoted "QA" +:+ "}".

Definition scenarioRuntime : Runtime :=
  mkRuntime
    (EncodeToString exampleRuntime)
    (AddDate exampleRuntime)
    (NewRequest_error exampleRuntime)
    (Unmarshal_ErrorResponse exampleRuntime)
    (Unmarshal_JiraResponse exampleRuntime)
    (Unmarshal_CreateIssueResponse exampleRuntime)
    (Unmarshal_JiraIssue exampleRuntime)
    (fun body => if String.eqb body loginBody then Ok loginTest
                 else Decode_TestCase exampleRuntime body)
    (fun body => if String.eqb body sprintBody then Ok sprintRun
                 else Decode_TestExecution exampleRuntime body)
    (godotenv_Load exampleRuntime).

(** A search answer with two issues, the value it decodes to, and a runtime
    whose decoder reads it. *)
Definition twoIssuesBody : string :=
  "{" +:+ quoted "issues" +:+ ":[{" +:+ quoted "id" +:+ ":" +:+ quoted "10010" +:+ ","
    +:+ quoted "key" +:+ ":" +:+ quoted "PROJ-1" +:+ "," +:+ quoted "fields" +:+ ":{"
    +:+ quoted "summary" +:+ ":" +:+ quoted "Login works" +:+ ","
    +:+ quoted "description" +:+ ":" +:+ quoted "Valid credentials open the dashboard"
    +:+ "," +:+ quoted "status" +:+ ":{" +:+ quoted "name" +:+ ":"
    +:+ quoted "In Progress" +:+ "}," +:+ quoted "priority" +:+ ":{" +:+ quoted "name"
    +:+ ":" +:+ quoted "High" +:+ "}," +:+ quoted "labels" +:+ ":[" +:+ quoted "login"
    +:+ "," +:+ quoted "smoke" +:+ "]," +:+ quoted "reporter" +:+ ":{"
    +:+ quoted "displayName" +:+ ":" +:+ quoted "Alice" +:+ "}," +:+ quoted "assignee"
    +:+ ":{" +:+ quoted "displayName" +:+ ":" +:+ quoted "Bob" +:+ "}}},{"
    +:+ quoted "id" +:+ ":" +:+ quoted "10011" +:+ "," +:+ quoted "key" +:+ ":"
    +:+ quoted "PROJ-2" +:+ "," +:+ quoted "fields" +:+ ":{" +:+ quoted "summary"
    +:+ ":" +:+ quoted "Logout works" +:+ "," +:+ quoted "status" +:+ ":{"
    +:+ quoted "name" +:+ ":" +:+ quoted "Done" +:+ "}," +:+ quoted "priority" +:+ ":{"
    +:+ quoted "name" +:+ ":" +:+ quoted "Low" +:+ "}," +:+ quoted "reporter" +:+ ":{"
    +:+ quoted "displayName" +:+ ":" +:+ quoted "Alice" +:+ "}}}]," +:+ quoted "total"
    +:+ ":2}".

Definition twoIssues : JiraResponse :=
  JiraResponse.mk
    (Some
       [ JiraIssue.mk "10010" "PROJ-1"
           (IssueFields.mk "Login works" "Valid credentials open the dashboard"
              IssueType.zero Project.zero (Priority.mk "" "High")
              (Status.mk "" "In Progress") (User.mk "" "" "Alice") (User.mk "" "" "Bob")
              (Some ["login"; "smoke"]) None);
         JiraIssue.mk "10011" "PROJ-2"
           (IssueFields.mk "Logout works" "" IssueType.zero Project.zero
              (Priority.mk "" "Low") (Status.mk "" "Done") (User.mk "" "" "Alice")
              User.zero None None) ])
    0 0 2.

Definition issuesRuntime : Runtime :=
  mkRuntime
    (EncodeToString exampleRuntime)
    (AddDate exampleRuntime)
    (NewRequest_error exampleRuntime)
    (Unmarshal_ErrorResponse exampleRuntime)
    (fun body => if String.eqb body twoIssuesBody then Ok twoIssues
                 else Unmarshal_JiraResponse exampleRuntime body)
    (Unmarshal_CreateIssueResponse exampleRuntime)
    (Unmarshal_JiraIssue exampleRuntime)
    (Decode_TestCase exampleRuntime)
    (Decode_TestExecution exampleRuntime)
    (godotenv_Load exampleRuntime).

(** A runtime that refuses to build a request for an issue key that is not
    a valid URL escape, as [http.NewRequest] does. *)
Definition strictRuntime : Runtime :=
  mkRuntime
    (EncodeToString exampleRuntime)
    (AddDate exampleRuntime)
    (fun _ url =>
       if String.eqb url "https://jira.example.com/rest/api/3/issue/%zz"
       then Some (LibraryError "invalid URL escape")
       else None)
    (Unmarshal_ErrorResponse exampleRuntime)
    (Unmarshal_JiraResponse exampleRuntime)
    (Unmarshal_CreateIssueResponse exampleRuntime)
    (Unmarshal_JiraIssue exampleRuntime)
    (Decode_TestCase exampleRuntime)
    (Decode_TestExecution exampleRuntime)
    (godotenv_Load exampleRuntime).

(** An execution with a description, a status and an environment. *)
Definition regressionRun : TestExecution :=
  TestExecution.mk "" "" "Regression" "Nightly regression run" ""
    (Some ["TEST-1"; "TEST-3"]) "EXECUTING" zeroTime zeroTime "" "Staging" None None.

(** [godotenv.Load] with a readable .env file holding the given entries: a
    variable of the file is set unless the process environment already
    defines it, be it as the empty string. *)
Definition godotenv_with (file : list (string * string)) (env : gmap string string)
  : gmap string string * option error :=
  (fold_right
     (fun entry e =>
        match e !! fst entry with
        | Some _ => e
        | None => <[fst entry := snd entry]> e
        end)
     env file,
   None).

(** A runtime with a .env file that defines the base URL, and the process
    environment [emptyURLEnv] without its base URL variable. *)
Definition dotenvRuntime : Runtime :=
  mkRuntime
    (EncodeToString exampleRuntime)
    (AddDate exampleRuntime)
    (NewRequest_error exampleRuntime)
    (Unmarshal_ErrorResponse exampleRuntime)
    (Unmarshal_JiraResponse exampleRuntime)
    (Unmarshal_CreateIssueResponse exampleRuntime)
    (Unmarshal_JiraIssue exampleRuntime)
    (Decode_TestCase exampleRuntime)
    (Decode_TestExecution exampleRuntime)
    (godotenv_with [("JIRA_BASE_URL", "https://jira.example.com")]).

Definition absentURLEnv : gmap string string := delete "JIRA_BASE_URL" emptyURLEnv.

(* ================================================================== *)
(** * Properties *)

(** The model at work on the fixtures. *)
Example demoClient_BaseURL : Client.BaseURL demoClient = "https://jira.example.com".
Proof. reflexivity. Qed.

Example demoClient_is_demo :
  isDemoCredentials demoClient = true /\ isDemoCredentials realClient = false.
Proof. split; reflexivity. Qed.

Example loginTest_payload :
  marshal_CreateIssueRequest (testCaseCreateReq realClient loginTest) =
    JObject
      [ ("fields",
         JObject
           [ ("summary", JString "Login works");
             ("description", JString "Valid credentials open the dashboard");
             ("issuetype", JObject [("name", JString "Test")]);
             ("project", JObject [("key", JString "PROJ")]);
             ("priority", JObject [("name", JString "High")]);
             ("status", JObject [("name", JString "")]);
             ("reporter", JObject []);
             ("assignee", JObject []);
             ("labels", JArray [JString "login"]) ]) ].
Proof. reflexivity. Qed.

Example emptySprint_rejected :
  fst (createTestExecution exampleRuntime demoClient (Context.mk [] emptySprintBody)
         (worldAt 1700000000%Z unreachable))
  = Reply.mk 400 [("error", AString "At least one test case is required")].
Proof. reflexivity. Qed.

Example listing_with_real_credentials_offline :
  fst (getTestCases exampleRuntime realClient (Context.mk [] "")
         (worldAt 1700000000%Z unreachable))
  = Reply.mk 500
      [ ("error", AString "Failed to fetch test cases");
        ("details",
         AErrorText
           (Wrapf "failed to fetch test cases"
              (Wrapf "failed to make request"
                 (LibraryError "dial tcp: connection refused")))) ].
Proof. reflexivity. Qed.

(** Identify the requests, responses and errors of two descriptions of one
    exchange. *)
Ltac same_exchange :=
  repeat match goal with
    | H : Ok _ = Err _ |- _ => discriminate H
    | H : Err _ = Ok _ |- _ => discriminate H
    | H : Ok _ = Ok _ |- _ => injection H as H; try subst
    | H : Err _ = Err _ |- _ => injection H as H; try subst
    | H : (_, _).1 = _ |- _ => cbn [fst] in H
    | H1 : ?x = Ok _, H2 : ?x = _ |- _ => rewrite H1 in H2
    | H1 : ?x = Err _, H2 : ?x = _ |- _ => rewrite H1 in H2
    end.

(* ------------------------------------------------------------------ *)
(** ** Creating a test case under demo credentials *)

(** C1, as stated, fails: under demo credentials no request is sent, but the
    returned entity carries the current time as its created date, not the
    created date of the input. *)
Lemma CreateTestCase_demo_stamps_CreatedDate :
  let out := CreateTestCase exampleRuntime demoClient loginTest (worldAt 1700000000%Z unreachable) in
  isDemoCredentials demoClient = true /\
  sent (snd out) = [] /\
  fst out <> Ok (overwrite_id_key_status_reporter loginTest) /\
  (TestCase.CreatedDate <$> (match fst out with Ok tc => Some tc | Err _ => None end))
    = Some 1700000000%Z /\
  TestCase.CreatedDate loginTest = zeroTime.
Proof.
  vm_compute. repeat split; try reflexivity. discriminate.
Qed.

(** C1, amended: under demo credentials [CreateTestCase] sends no request and
    returns the input with id, key, status, created date and reporter
    overwritten, by "10004", "TEST-4", "To Do", the current time and
    "Demo User"; every other field is the input's. *)
Theorem CreateTestCase_demo (rt : Runtime) (c : Client) (tc : TestCase) (w : World) :
  isDemoCredentials c = true ->
  let now := clock w (readouts w) in
  let out := CreateTestCase rt c tc w in
  fst out = Ok (TestCase.set_CreatedDate now (overwrite_id_key_status_reporter tc)) /\
  sent (snd out) = sent w /\
  backend (snd out) = backend w.
Proof.
  intros Hdemo. unfold CreateTestCase. rewrite Hdemo. cbn. auto.
Qed.

Lemma CreateTestCase_demo_witness :
  let w := worldAt 1700000000%Z unreachable in
  let out := CreateTestCase exampleRuntime demoClient loginTest w in
  fst out = Ok (TestCase.set_CreatedDate 1700000000%Z
                  (overwrite_id_key_status_reporter loginTest)) /\
  sent (snd out) = sent w /\
  backend (snd out) = backend w.
Proof.
  exact (CreateTestCase_demo exampleRuntime demoClient loginTest
           (worldAt 1700000000%Z unreachable) eq_refl).
Defined.

(* ------------------------------------------------------------------ *)
(** ** Fetching a test execution under demo credentials *)

(** C3, as stated, fails: there is no fixed entity that [GetTestExecution]
    returns under demo credentials up to the key.  The start date and the
    execution times of the two results are read off the clock at each call. *)
Lemma GetTestExecution_demo_not_fixed :
  ~ exists canned : TestExecution,
      forall (key : string) (w : World),
        fst (GetTestExecution exampleRuntime demoClient key w)
        = Ok (TestExecution.set_Key key canned).
Proof.
  intros [canned Hfixed].
  pose proof (Hfixed "EXEC-9" (worldAt 1700000000%Z unreachable)) as Hmorning.
  pose proof (Hfixed "EXEC-9" (worldAt 1700003600%Z unreachable)) as Hlater.
  pose proof (eq_trans Hmorning (eq_sym Hlater)) as Hsame.
  vm_compute in Hsame. discriminate Hsame.
Qed.

(** C3, amended: under demo credentials [GetTestExecution] sends no request
    and returns an execution whose key is the requested key and whose other
    fields do not depend on the key: fixed values, except the start date (one
    day before the current time) and the execution time of each of its two
    results (the current time).  The two results are one PASS and one FAIL,
    the latter with the linked defect "BUG-123". *)
Theorem GetTestExecution_demo (rt : Runtime) (c : Client) (key : string) (w : World) :
  isDemoCredentials c = true ->
  let now := fun i => clock w (i + readouts w) in
  let out := GetTestExecution rt c key w in
  fst out =
    Ok (TestExecution.mk "10005" key "Demo Test Execution"
          "This is a demo test execution" "In Progress"
          (Some ["TEST-1"; "TEST-2"]) "EXECUTING"
          (AddDate rt (now 0) 0 0 (-1)) zeroTime "Demo User" "QA"
          (Some
             [ TestResult.mk "TEST-1" "PASS" "Test passed successfully" 5000
                 "Demo User" (now 1) None None;
               TestResult.mk "TEST-2" "FAIL" "Test failed due to timeout" 10000
                 "Demo User" (now 2) (Some ["BUG-123"]) None ])
          None) /\
  (forall key' : string,
      fst (GetTestExecution rt c key' w)
      = match fst out with
        | Ok te => Ok (TestExecution.set_Key key' te)
        | Err e => Err e
        end) /\
  sent (snd out) = sent w.
Proof.
  intros Hdemo. unfold GetTestExecution. rewrite Hdemo. cbn. auto.
Qed.

Lemma GetTestExecution_demo_witness :
  let out := GetTestExecution exampleRuntime demoClient "EXEC-9"
               (worldAt 1700000000%Z unreachable) in
  (TestExecution.Key <$> (match fst out with Ok te => Some te | Err _ => None end))
    = Some "EXEC-9" /\
  sent (snd out) = [].
Proof.
  destruct (GetTestExecution_demo exampleRuntime demoClient "EXEC-9"
              (worldAt 1700000000%Z unreachable) eq_refl) as (Hout & _ & Hsent).
  cbv zeta. rewrite Hout. split; [reflexivity | exact Hsent].
Defined.

(* ------------------------------------------------------------------ *)
(** ** GET /api/testcases/:key *)

(** C8: whatever the configuration and the client's credentials, and for
    every requested key, the handler of GET /api/testcases/:key replies 200
    with the canned test case, its key being the requested one, and leaves
    the world as it found it: no request is sent. *)
Theorem getTestCase_canned (config : Config) (jiraClient : Client)
    (ctx : Context.t) (w : World) :
  let key := Context.Param ctx "key" in
  let out := getTestCase ctx w in
  Reply.Code (fst out) = 200%Z /\
  Reply.Obj (fst out) =
    [ ("testCase",
         AMap [ ("id", AString "10001");
                ("key", AString key);
                ("summary", AString "Sample Test Case");
                ("description", AString "This is a sample test case");
                ("status", AString "To Do");
                ("priority", AString "Medium") ]);
      ("message", AString "Test case retrieved successfully") ] /\
  dig ["testCase"; "key"] (AMap (Reply.Obj (fst out))) = Some (AString key) /\
  snd out = w.
Proof.
  cbn. auto.
Qed.

(* ------------------------------------------------------------------ *)
(** ** Listing test cases: the fallback after a failed call *)

Section ListFallback.
Context (rt : Runtime).

Lemma handleResponse_failed {T : Type} (unmarshal : string -> Result T error)
    (resp : Response) (target : T) :
  failed_response unmarshal resp = true <->
  exists e, handleResponse rt unmarshal resp target = Err e.
Proof.
  unfold failed_response, handleResponse.
  destruct (Response.Body resp) as [body | e0]; [| split; eauto].
  destruct (400 <=? Response.StatusCode resp)%Z;
    destruct (0 <? String.length body)%nat;
    destruct (unmarshal body) as [v | e1];
    destruct (Unmarshal_ErrorResponse rt body) as [er | e2];
    cbn [orb andb negb is_Ok];
    (split; [try discriminate; eauto | try reflexivity; intros [e He]; discriminate He]).
Qed.

Lemma handleResponse_not_failed {T : Type} (unmarshal : string -> Result T error)
    (resp : Response) (target : T) :
  failed_response unmarshal resp = false ->
  exists v, handleResponse rt unmarshal resp target = Ok v.
Proof.
  intros Hok.
  destruct (handleResponse rt unmarshal resp target) as [v | e] eqn:Hh; [eauto |].
  assert (failed_response unmarshal resp = true) as Hf
    by (apply (handleResponse_failed unmarshal resp target); eauto).
  congruence.
Qed.

(** What [makeRequest] does once the request is built: the request is
    appended to the log of calls, and the HTTP client's answer decides the
    result. *)
Lemma makeRequest_sent (c : Client) (method endpoint : string)
    (body : option CreateIssueRequest) (w : World) (req : Request) :
  newRequest rt c method endpoint body = Ok req ->
  makeRequest rt c method endpoint body w =
    (match backend w (sent w) req with
     | Ok resp => Ok resp
     | Err err => Err (Wrapf "failed to make request" err)
     end,
     mkWorld (clock w) (backend w) (readouts w) (sent w ++ [req])).
Proof.
  intros Hbuild. unfold makeRequest. rewrite Hbuild.
  unfold mbind, M_bind, Do.
  destruct (backend w (sent w) req); reflexivity.
Qed.

Lemma makeRequest_unbuilt (c : Client) (method endpoint : string)
    (body : option CreateIssueRequest) (w : World) (e : error) :
  newRequest rt c method endpoint body = Err e ->
  makeRequest rt c method endpoint body w = (Err e, w).
Proof.
  intros Hbuild. unfold makeRequest. rewrite Hbuild. reflexivity.
Qed.

(** Under demo credentials a failed response is replaced by the canned
    records, produced after the request went out. *)
Lemma ListTestCases_demo_failed (c : Client) (w : World) (req : Request) (resp : Response) :
  isDemoCredentials c = true ->
  newRequest rt c "GET" (searchEndpoint c) None = Ok req ->
  backend w (sent w) req = Ok resp ->
  failed_response (Unmarshal_JiraResponse rt) resp = true ->
  ListTestCases rt c w =
    (let '(mock, w') := getMockTestCases rt c (snd (Do req w)) in (Ok mock, w')).
Proof.
  intros Hdemo Hbuild Hback Hfailed.
  apply (handleResponse_failed _ resp JiraResponse.zero) in Hfailed.
  destruct Hfailed as [e He].
  unfold ListTestCases, mbind, M_bind.
  rewrite (makeRequest_sent _ _ _ _ _ _ Hbuild), Hback, He, Hdemo.
  reflexivity.
Qed.

Lemma converted_never_canned (issues : list JiraIssue) (d1 d2 d3 : Time) :
  Some (map test_case_of_issue issues) <> canned_test_cases d1 d2 d3.
Proof.
  intros Heq.
  apply (f_equal (fun s : slice TestCase =>
                    match s with
                    | Some (tc :: _) => TestCase.TestType tc
                    | _ => ""
                    end)) in Heq.
  destruct issues; cbn in Heq; discriminate Heq.
Qed.

(** C2: [ListTestCases] hands its request to the HTTP client before it looks
    at the credentials.  Under demo credentials the three canned records
    (TEST-1, TEST-2 and TEST-3, created seven, five and three days before the
    current time) are returned only after a request was sent and its response
    failed (unreadable body, status 400 or above, or undecodable body), and
    they are returned for every such response.  A response that does not fail
    yields, in the response's order, the test case mapped from each of its
    issues, which is never the canned set.  Without demo credentials a failed
    call returns its error: the HTTP client's, wrapped, or the one
    [handleResponse] reports. *)
Theorem ListTestCases_fallback (c : Client) (w : World) :
  let out := ListTestCases rt c w in
  let build := newRequest rt c "GET" (searchEndpoint c) None in
  let now := fun i => clock w (i + readouts w) in
  (isDemoCredentials c = true ->
   forall created1 created2 created3 : Time,
     fst out = Ok (canned_test_cases created1 created2 created3) ->
     exists req resp,
       build = Ok req /\
       sent (snd out) = (sent w ++ [req])%list /\
       backend w (sent w) req = Ok resp /\
       failed_response (Unmarshal_JiraResponse rt) resp = true) /\
  (isDemoCredentials c = true ->
   forall req resp,
     build = Ok req ->
     backend w (sent w) req = Ok resp ->
     failed_response (Unmarshal_JiraResponse rt) resp = true ->
     fst out = Ok (canned_test_cases (AddDate rt (now 0) 0 0 (-7))
                     (AddDate rt (now 1) 0 0 (-5))
                     (AddDate rt (now 2) 0 0 (-3))) /\
     sent (snd out) = (sent w ++ [req])%list) /\
  (forall req resp,
     build = Ok req ->
     backend w (sent w) req = Ok resp ->
     failed_response (Unmarshal_JiraResponse rt) resp = false ->
     exists jiraResp,
       handleResponse rt (Unmarshal_JiraResponse rt) resp JiraResponse.zero = Ok jiraResp /\
       fst out = Ok (Some (map test_case_of_issue (elems (JiraResponse.Issues jiraResp)))) /\
       sent (snd out) = (sent w ++ [req])%list /\
       forall created1 created2 created3 : Time,
         fst out <> Ok (canned_test_cases created1 created2 created3)) /\
  (isDemoCredentials c = false ->
   forall req,
     build = Ok req ->
     (forall e, backend w (sent w) req = Err e ->
                fst out = Err (Wrapf "failed to fetch test cases"
                                 (Wrapf "failed to make request" e))) /\
     (forall resp e,
         backend w (sent w) req = Ok resp ->
         handleResponse rt (Unmarshal_JiraResponse rt) resp JiraResponse.zero = Err e ->
         fst out = Err e)).
Proof.
  cbv zeta. unfold ListTestCases, mbind, M_bind, mret, M_ret.
  destruct (newRequest rt c "GET" (searchEndpoint c) None) as [req | e0] eqn:Hbuild.
  2:{ rewrite (makeRequest_unbuilt _ _ _ _ _ _ Hbuild).
      cbn [fst snd sent]. repeat split; intros; same_exchange. }
  rewrite (makeRequest_sent _ _ _ _ _ _ Hbuild).
  destruct (backend w (sent w) req) as [resp | e1] eqn:Hback.
  2:{ cbn [fst snd sent]. repeat split; intros; same_exchange; reflexivity. }
  destruct (handleResponse rt (Unmarshal_JiraResponse rt) resp JiraResponse.zero)
    as [jiraResp | e2] eqn:Hh; cbn [fst snd sent].
  - (* the response yields a value *)
    assert (failed_response (Unmarshal_JiraResponse rt) resp = false) as Hnf.
    { destruct (failed_response (Unmarshal_JiraResponse rt) resp) eqn:Hf; [| reflexivity].
      apply (handleResponse_failed _ resp JiraResponse.zero) in Hf.
      destruct Hf as [e He]. congruence. }
    split; [| split; [| split]].
    + intros _ created1 created2 created3 Hcanned. exfalso.
      injection Hcanned as Hcanned.
      exact (converted_never_canned _ created1 created2 created3 (f_equal Some Hcanned)).
    + intros _ req' resp' Hreq' Hresp' Hfailed. same_exchange. congruence.
    + intros req' resp' Hreq' Hresp' _. same_exchange.
      exists jiraResp. split; [exact Hh |]. split; [reflexivity |].
      split; [reflexivity |].
      intros created1 created2 created3 Hcanned. injection Hcanned as Hcanned.
      exact (converted_never_canned _ created1 created2 created3 (f_equal Some Hcanned)).
    + intros _ req' Hreq'. same_exchange. split; intros; same_exchange.
  - (* the response failed *)
    assert (failed_response (Unmarshal_JiraResponse rt) resp = true) as Hf
      by (apply (handleResponse_failed _ resp JiraResponse.zero); eauto).
    split; [| split; [| split]].
    + intros Hdemo created1 created2 created3 _. rewrite Hdemo.
      exists req, resp. repeat split; auto.
    + intros Hdemo req' resp' Hreq' Hresp' _. same_exchange. rewrite Hdemo.
      split; reflexivity.
    + intros req' resp' Hreq' Hresp' Hnf. same_exchange. congruence.
    + intros Hreal req' Hreq'. same_exchange. rewrite Hreal.
      split; intros; same_exchange; reflexivity.
Qed.

End ListFallback.

Lemma ListTestCases_fallback_witness :
  (* demo credentials, the backend answers 503: the canned records come
     back, after the request went out *)
  (let out := ListTestCases exampleRuntime demoClient
                (worldAt 1700000000%Z (answering 503 "Service Unavailable")) in
   fst out = Ok (canned_test_cases 1699395200%Z 1699568001%Z 1699740802%Z) /\
   length (sent (snd out)) = 1) /\
  (* demo credentials, the backend answers 200 with two issues: their test
     cases come back, in order *)
  (fst (ListTestCases issuesRuntime demoClient
          (worldAt 1700000000%Z (answering 200 twoIssuesBody)))
   = Ok (Some
           [ TestCase.mk "10010" "PROJ-1" "Login works"
               "Valid credentials open the dashboard" "In Progress" "High"
               (Some ["login"; "smoke"]) None "" zeroTime zeroTime "Alice" "Bob" None;
             TestCase.mk "10011" "PROJ-2" "Logout works" "" "Done" "Low"
               None None "" zeroTime zeroTime "Alice" "" None ])) /\
  (* real credentials, the backend cannot be reached *)
  (fst (ListTestCases exampleRuntime realClient (worldAt 1700000000%Z unreachable))
   = Err (Wrapf "failed to fetch test cases"
            (Wrapf "failed to make request"
               (LibraryError "dial tcp: connection refused")))).
Proof.
  split; [| split].
  - destruct (ListTestCases_fallback exampleRuntime demoClient
                (worldAt 1700000000%Z (answering 503 "Service Unavailable")))
      as (_ & Hcanned & _).
    edestruct Hcanned as (Hout & Hsent); [reflexivity ..|].
    cbv zeta. rewrite Hout, Hsent. split; reflexivity.
  - destruct (ListTestCases_fallback issuesRuntime demoClient
                (worldAt 1700000000%Z (answering 200 twoIssuesBody)))
      as (_ & _ & Hconv & _).
    edestruct Hconv as (jiraResp & Hhandled & Hout & _); [reflexivity ..|].
    rewrite Hout. injection Hhandled as <-. reflexivity.
  - destruct (ListTestCases_fallback exampleRuntime realClient
                (worldAt 1700000000%Z unreachable)) as (_ & _ & _ & Hreal).
    edestruct Hreal as (Htransport & _); [reflexivity ..|].
    apply Htransport. reflexivity.
Defined.

(* ------------------------------------------------------------------ *)
(** ** Validation in the POST handlers *)

(** C4: a POST /api/testcases whose body decodes to a test case with an empty
    summary is answered with 400 and a message saying the summary is
    required; the world is left as it was, so no request reaches the backend. *)
Theorem createTestCase_empty_summary (rt : Runtime) (jiraClient : Client)
    (ctx : Context.t) (tc : TestCase) (w : World) :
  Decode_TestCase rt (Context.Body ctx) = Ok tc ->
  TestCase.Summary tc = "" ->
  let out := createTestCase rt jiraClient ctx w in
  Reply.Code (fst out) = 400%Z /\
  says_summary_required (Reply.Obj (fst out)) /\
  snd out = w.
Proof.
  intros Hdecode Hsummary.
  unfold createTestCase, ShouldBindJSON, validate_TestCase.
  rewrite Hdecode, Hsummary. cbn.
  repeat split. right. eexists. split; [reflexivity | left; reflexivity].
Qed.

Lemma createTestCase_empty_summary_witness :
  let w := worldAt 1700000000%Z unreachable in
  let out := createTestCase exampleRuntime realClient (Context.mk [] "{}") w in
  Reply.Code (fst out) = 400%Z /\
  says_summary_required (Reply.Obj (fst out)) /\
  snd out = w.
Proof.
  exact (createTestCase_empty_summary exampleRuntime realClient (Context.mk [] "{}")
           TestCase.zero (worldAt 1700000000%Z unreachable) eq_refl eq_refl).
Defined.

(** C5: a POST /api/testexecutions whose body decodes to an execution with
    no test cases (a nil or an empty list) is answered with 400; the world is
    left as it was, so no request reaches the backend. *)
Theorem createTestExecution_no_test_cases (rt : Runtime) (jiraClient : Client)
    (ctx : Context.t) (te : TestExecution) (w : World) :
  Decode_TestExecution rt (Context.Body ctx) = Ok te ->
  len (TestExecution.TestCases te) = 0 ->
  let out := createTestExecution rt jiraClient ctx w in
  Reply.Code (fst out) = 400%Z /\
  snd out = w.
Proof.
  intros Hdecode Hlen.
  unfold createTestExecution, ShouldBindJSON, validate_TestExecution.
  rewrite Hdecode.
  destruct (String.eqb (TestExecution.Summary te) "") eqn:Hsummary;
    destruct (TestExecution.TestCases te) as [[| k ks] |] eqn:Hcases;
    try discriminate Hlen; cbn; rewrite ?Hsummary, ?Hcases; cbn; auto.
Qed.

Lemma createTestExecution_no_test_cases_witness :
  let w := worldAt 1700000000%Z unreachable in
  let out := createTestExecution exampleRuntime realClient
               (Context.mk [] emptySprintBody) w in
  Reply.Code (fst out) = 400%Z /\
  snd out = w.
Proof.
  exact (createTestExecution_no_test_cases exampleRuntime realClient
           (Context.mk [] emptySprintBody) emptySprint
           (worldAt 1700000000%Z unreachable) eq_refl eq_refl).
Defined.

(* ------------------------------------------------------------------ *)
(** ** The issue-creation payloads *)

Section Payloads.
Context (rt : Runtime).

Lemma newRequest_Body (c : Client) (method endpoint : string)
    (body : option CreateIssueRequest) (req : Request) :
  newRequest rt c method endpoint body = Ok req ->
  Request.Method req = method /\
  Request.URL req = Client.BaseURL c +:+ "/rest/api/3/" +:+ endpoint /\
  Request.Body req = marshal_CreateIssueRequest <$> body.
Proof.
  unfold newRequest.
  destruct (NewRequest_error rt method _); [discriminate |].
  intros Hreq. injection Hreq as <-. auto.
Qed.

(** [handleResponse] has no effect on the world, and reading the clock sends
    nothing: after [makeRequest] the requests sent stay as they are. *)
Lemma CreateTestCase_sent (c : Client) (tc : TestCase) (w : World) :
  sent (snd (CreateTestCase rt c tc w)) =
    if isDemoCredentials c then sent w
    else match newRequest rt c "POST" "issue" (Some (testCaseCreateReq c tc)) with
         | Ok req => (sent w ++ [req])%list
         | Err _ => sent w
         end.
Proof.
  unfold CreateTestCase.
  destruct (isDemoCredentials c); [reflexivity |].
  unfold mbind, M_bind.
  destruct (newRequest rt c "POST" "issue" (Some (testCaseCreateReq c tc)))
    as [req | e] eqn:Hbuild.
  - rewrite (makeRequest_sent rt _ _ _ _ _ _ Hbuild).
    destruct (backend w (sent w) req) as [resp | e]; [| reflexivity].
    destruct (handleResponse rt _ resp _); reflexivity.
  - rewrite (makeRequest_unbuilt rt _ _ _ _ _ _ Hbuild). reflexivity.
Qed.

Lemma CreateTestExecution_sent (c : Client) (te : TestExecution) (w : World) :
  sent (snd (CreateTestExecution rt c te w)) =
    if isDemoCredentials c then sent w
    else match newRequest rt c "POST" "issue" (Some (testExecutionCreateReq c te)) with
         | Ok req => (sent w ++ [req])%list
         | Err _ => sent w
         end.
Proof.
  unfold CreateTestExecution.
  destruct (isDemoCredentials c); [reflexivity |].
  unfold mbind, M_bind.
  destruct (newRequest rt c "POST" "issue" (Some (testExecutionCreateReq c te)))
    as [req | e] eqn:Hbuild.
  - rewrite (makeRequest_sent rt _ _ _ _ _ _ Hbuild).
    destruct (backend w (sent w) req) as [resp | e]; [| reflexivity].
    destruct (handleResponse rt _ resp _); reflexivity.
  - rewrite (makeRequest_unbuilt rt _ _ _ _ _ _ Hbuild). reflexivity.
Qed.

(** The request value [CreateTestCase] builds: summary, description, the
    issue type "Test", the configured project key and the labels; its
    priority names the test case's priority, and is the zero value when that
    is empty. *)
Lemma testCaseCreateReq_fields (c : Client) (tc : TestCase) :
  CreateIssueRequest.Fields (testCaseCreateReq c tc) =
    IssueFields.mk (TestCase.Summary tc) (TestCase.Description tc)
      (IssueType.mk "" "Test") (Project.mk (Client.ProjectKey c) "")
      (Priority.mk "" (TestCase.Priority tc)) Status.zero User.zero User.zero
      (TestCase.Labels tc) None.
Proof.
  unfold testCaseCreateReq.
  destruct (String.eqb (TestCase.Priority tc) "") eqn:Hprio; cbn; [| reflexivity].
  apply String.eqb_eq in Hprio. rewrite Hprio. reflexivity.
Qed.

(** On the wire the priority member is written whether or not the test case
    has a priority: [omitempty] does not apply to a field of struct type. *)
Lemma testCase_payload_priority (c : Client) (tc : TestCase) :
  member "priority" (marshal_IssueFields (CreateIssueRequest.Fields (testCaseCreateReq c tc)))
  = Some (JObject [("name", JString (TestCase.Priority tc))]).
Proof.
  rewrite testCaseCreateReq_fields.
  unfold marshal_IssueFields, omitempty_string. cbn.
  destruct (String.eqb (TestCase.Description tc) ""); reflexivity.
Qed.

(** What holds of the creation request of every execution: each request
    [CreateTestExecution] hands to the HTTP client carries one and the same
    body, built from the summary, the description, the issue type
    "Test Execution" and the configured project key, together with the
    priority, status, reporter and assignee members that [omitempty] does not
    drop; with real credentials and a well-formed URL there is exactly one
    call.  No member of the body is named testCases, environment or
    executionStatus, and every non-empty string in it is the summary, the
    description, "Test Execution" or the project key. *)
Theorem CreateTestExecution_payload (c : Client) (te : TestExecution) (w : World) :
  let out := CreateTestExecution rt c te w in
  let body :=
    JObject
      [ ("fields",
         JObject
           ([ ("summary", JString (TestExecution.Summary te)) ]
            ++ omitempty_string "description" (TestExecution.Description te)
            ++ [ ("issuetype", JObject [("name", JString "Test Execution")]);
                 ("project", JObject [("key", JString (Client.ProjectKey c))]);
                 ("priority", JObject [("name", JString "")]);
                 ("status", JObject [("name", JString "")]);
                 ("reporter", JObject []);
                 ("assignee", JObject []) ])) ] in
  (exists new : list Request,
      sent (snd out) = (sent w ++ new)%list /\
      (forall req, In req new -> Request.Body req = Some body) /\
      (isDemoCredentials c = false ->
       NewRequest_error rt "POST" (Client.BaseURL c +:+ "/rest/api/3/issue") = None ->
       length new = 1)) /\
  (forall name,
      In name ["testCases"; "environment"; "executionStatus"] ->
      ~ In name (member_names body)) /\
  (forall s,
      In s (string_values body) ->
      s = TestExecution.Summary te \/ s = TestExecution.Description te \/
      s = "Test Execution" \/ s = Client.ProjectKey c).
Proof.
  cbv zeta. split; [| split].
  - rewrite CreateTestExecution_sent.
    destruct (isDemoCredentials c).
    { exists []. rewrite app_nil_r. repeat split; [intros req [] | discriminate]. }
    destruct (newRequest rt c "POST" "issue" (Some (testExecutionCreateReq c te)))
      as [req | e] eqn:Hbuild.
    + exists [req]. repeat split.
      intros req' [<- | []].
      destruct (newRequest_Body _ _ _ _ _ Hbuild) as (_ & _ & ->). reflexivity.
    + exists []. rewrite app_nil_r. repeat split; [intros req [] |].
      intros _ Hurl. unfold newRequest in Hbuild.
      change (Client.BaseURL c +:+ "/rest/api/3/" +:+ "issue")
        with (Client.BaseURL c +:+ "/rest/api/3/issue") in Hbuild.
      rewrite Hurl in Hbuild. discriminate Hbuild.
  - intros name Hname Hin. unfold omitempty_string in Hin.
    destruct (String.eqb (TestExecution.Description te) "");
      cbn in Hname, Hin; intuition (subst; discriminate).
  - intros s. unfold omitempty_string.
    destruct (String.eqb (TestExecution.Description te) "") eqn:Hd;
      cbn; rewrite ?Hd;
      destruct (String.eqb (TestExecution.Summary te) "");
      destruct (String.eqb (Client.ProjectKey c) "");
      cbn; intuition auto.
Qed.

End Payloads.

Lemma CreateTestExecution_payload_witness :
  let w := worldAt 1700000000%Z (answering 201 "{}") in
  let out := CreateTestExecution exampleRuntime realClient sprintRun w in
  length (sent (snd out)) = 1 /\
  ~ In "testCases" (flat_map (fun req => match Request.Body req with
                                         | Some body => member_names body
                                         | None => []
                                         end) (sent (snd out))).
Proof.
  destruct (CreateTestExecution_payload exampleRuntime realClient sprintRun
              (worldAt 1700000000%Z (answering 201 "{}")))
    as ((new & Hsent & Hbody & Hone) & Hnames & _).
  cbv zeta. rewrite Hsent. cbn [worldAt sent app].
  specialize (Hone eq_refl eq_refl).
  destruct new as [| req [| req' new]]; try discriminate Hone.
  split; [reflexivity |].
  cbn [flat_map]. rewrite (Hbody req (or_introl eq_refl)), app_nil_r.
  apply Hnames. left. reflexivity.
Defined.

(** C7, at an execution with a description, test cases, an execution status
    and an environment: with real credentials [CreateTestExecution] hands one
    request to the HTTP client.  Its body has no member for the test cases,
    the execution status or the environment, and it has the summary, the
    description, the issue type "Test Execution" and the project key; but it
    does not contain only these: the priority, status, reporter and assignee
    members are written as well, as empty objects. *)
Theorem CreateTestExecution_sends_empty_members :
  let w := worldAt 1700000000%Z (answering 201 "{}") in
  let out := CreateTestExecution exampleRuntime realClient regressionRun w in
  exists req,
    sent (snd out) = [req] /\
    Request.Body req =
      Some
        (JObject
           [ ("fields",
              JObject
                [ ("summary", JString "Regression");
                  ("description", JString "Nightly regression run");
                  ("issuetype", JObject [("name", JString "Test Execution")]);
                  ("project", JObject [("key", JString "PROJ")]);
                  ("priority", JObject [("name", JString "")]);
                  ("status", JObject [("name", JString "")]);
                  ("reporter", JObject []);
                  ("assignee", JObject []) ]) ]) /\
    match Request.Body req with
    | Some body =>
        member_names body =
          [ "fields"; "summary"; "description"; "issuetype"; "name"; "project"; "key";
            "priority"; "name"; "status"; "name"; "reporter"; "assignee" ]
    | None => False
    end.
Proof.
  cbv zeta. eexists. split; [reflexivity |]. split; reflexivity.
Qed.

(** C6, at a test case without priority: with real credentials
    [CreateTestCase] sends one request, and the body of that request has a
    priority member, an object whose name is the empty string.  The priority
    is not left out. *)
Theorem CreateTestCase_sends_empty_priority :
  let w := worldAt 1700000000%Z (answering 201 "{}") in
  let out := CreateTestCase exampleRuntime realClient untriagedTest w in
  TestCase.Priority untriagedTest = "" /\
  is_Ok (fst out) = true /\
  exists req body fields,
    sent (snd out) = [req] /\
    Request.Body req = Some body /\
    member "fields" body = Some fields /\
    member "priority" fields = Some (JObject [("name", JString "")]) /\
    In "priority" (member_names body).
Proof.
  cbv zeta. split; [reflexivity |]. split; [reflexivity |].
  do 3 eexists. vm_compute. repeat split; try reflexivity. tauto.
Qed.

(* ------------------------------------------------------------------ *)
(** ** Demo credentials by token only *)

(** C9, as stated, fails: with the placeholder token and a user name other
    than "demo_user" the client counts its credentials as demo credentials
    and the health and info endpoints report demo_mode false, but not every
    client operation takes the mock path.  [ListTestCases] sends its request,
    and when the backend answers it returns what the backend sent, here an
    empty list, not the canned records. *)
Lemma token_only_list_reaches_backend :
  let c := mainClient tokenOnlyConfig in
  let w := worldAt 1700000000%Z (answering 200 "{}") in
  let out := ListTestCases exampleRuntime c w in
  Config.JiraUsername tokenOnlyConfig <> "demo_user" /\
  isDemoCredentials c = true /\
  dig ["jira"; "demo_mode"]
    (AMap (Reply.Obj (fst (healthCheck tokenOnlyConfig (Context.mk [] "") w))))
    = Some (ABool false) /\
  fst out = Ok (Some []) /\
  length (sent (snd out)) = 1 /\
  fst out <> Ok (fst (getMockTestCases exampleRuntime c (snd out))).
Proof.
  vm_compute. repeat split; try reflexivity; discriminate.
Qed.

(** C9, amended: with the placeholder token and a user name other than
    "demo_user", the client counts its credentials as demo credentials;
    [CreateTestCase], [CreateTestExecution] and [GetTestExecution] take the
    mock path, sending nothing; [ListTestCases] returns the canned records
    whenever the response to its request fails; and the health and info
    endpoints both report demo_mode false. *)
Theorem token_only_demo (rt : Runtime) (config : Config) :
  Config.JiraUsername config <> "demo_user" ->
  Config.JiraAPIToken config = "demo_token_replace_with_actual" ->
  let c := mainClient config in
  isDemoCredentials c = true /\
  (forall tc w,
      CreateTestCase rt c tc w
      = (let '(mock, w') := createMockTestCase c tc w in (Ok mock, w')) /\
      sent (snd (CreateTestCase rt c tc w)) = sent w) /\
  (forall te w,
      CreateTestExecution rt c te w
      = (let '(mock, w') := createMockTestExecution c te w in (Ok mock, w')) /\
      sent (snd (CreateTestExecution rt c te w)) = sent w) /\
  (forall key w,
      GetTestExecution rt c key w
      = (let '(mock, w') := getMockTestExecution rt c key w in (Ok mock, w')) /\
      sent (snd (GetTestExecution rt c key w)) = sent w) /\
  (forall w req resp,
      newRequest rt c "GET" (searchEndpoint c) None = Ok req ->
      backend w (sent w) req = Ok resp ->
      failed_response (Unmarshal_JiraResponse rt) resp = true ->
      ListTestCases rt c w
      = (let '(mock, w') := getMockTestCases rt c (snd (Do req w)) in (Ok mock, w'))) /\
  (forall ctx w,
      dig ["jira"; "demo_mode"] (AMap (Reply.Obj (fst (healthCheck config ctx w))))
      = Some (ABool false)) /\
  (forall ctx w,
      dig ["configuration"; "demo_mode"] (AMap (Reply.Obj (fst (getAPIInfo config ctx w))))
      = Some (ABool false)).
Proof.
  intros Huser Htoken c.
  assert (isDemoCredentials c = true) as Hdemo.
  { unfold isDemoCredentials, c, mainClient, NewClient. cbn.
    rewrite Htoken. apply orb_true_r. }
  apply String.eqb_neq in Huser.
  split; [exact Hdemo |].
  split; [| split; [| split; [| split; [| split]]]].
  - intros tc w. unfold CreateTestCase. rewrite Hdemo. split; reflexivity.
  - intros te w. unfold CreateTestExecution. rewrite Hdemo. split; reflexivity.
  - intros key w. unfold GetTestExecution. rewrite Hdemo. split; reflexivity.
  - intros w req resp. apply ListTestCases_demo_failed. exact Hdemo.
  - intros ctx w. cbn. rewrite Huser. reflexivity.
  - intros ctx w. cbn. rewrite Huser. reflexivity.
Qed.

Lemma token_only_demo_witness :
  let c := mainClient tokenOnlyConfig in
  let w := worldAt 1700000000%Z unreachable in
  isDemoCredentials c = true /\
  sent (snd (CreateTestCase exampleRuntime c loginTest w)) = [] /\
  dig ["jira"; "demo_mode"]
    (AMap (Reply.Obj (fst (healthCheck tokenOnlyConfig (Context.mk [] "") w))))
    = Some (ABool false).
Proof.
  destruct (token_only_demo exampleRuntime tokenOnlyConfig
              ltac:(discriminate) eq_refl)
    as (Hdemo & Hcreate & _ & _ & _ & Hhealth & _).
  split; [exact Hdemo |].
  split; [exact (proj2 (Hcreate loginTest (worldAt 1700000000%Z unreachable))) |].
  apply Hhealth.
Defined.

(* ------------------------------------------------------------------ *)
(** ** Empty and unset environment variables *)

Lemma Getenv_empty (env : gmap string string) (key : string) :
  Getenv env key = "" <-> unset_or_empty env key.
Proof.
  unfold Getenv, unset_or_empty.
  destruct (env !! key) as [v |]; cbn.
  - split; [intros ->; auto | intros [Habs | Hv]; congruence].
  - split; auto.
Qed.

Lemma getEnvOrDefault_unset_or_empty (env : gmap string string) (key d : string) :
  unset_or_empty env key -> getEnvOrDefault env key d = d.
Proof.
  intros Hkey. apply Getenv_empty in Hkey.
  unfold getEnvOrDefault. rewrite Hkey. reflexivity.
Qed.

Lemma getEnvOrDefault_set (env : gmap string string) (key d : string) :
  ~ unset_or_empty env key -> getEnvOrDefault env key d = Getenv env key.
Proof.
  intros Hkey. unfold getEnvOrDefault.
  destruct (String.eqb (Getenv env key) "") eqn:Hv; [| reflexivity].
  apply String.eqb_eq in Hv. apply Getenv_empty in Hv. contradiction.
Qed.

Lemma required_eqb (env : gmap string string) (key : string) :
  String.eqb (getEnvOrDefault env key "") "" = true <-> unset_or_empty env key.
Proof.
  rewrite String.eqb_eq. split.
  - intros Hd. apply Getenv_empty. unfold getEnvOrDefault in Hd.
    destruct (String.eqb (Getenv env key) "") eqn:Hv; cbn in Hd.
    + apply String.eqb_eq. exact Hv.
    + exact Hd.
  - apply getEnvOrDefault_unset_or_empty.
Qed.

Lemma required_eqb_false (env : gmap string string) (key : string) :
  ~ unset_or_empty env key -> String.eqb (getEnvOrDefault env key "") "" = false.
Proof.
  intros Hkey. destruct (String.eqb (getEnvOrDefault env key "") "") eqn:Hv; [| reflexivity].
  apply required_eqb in Hv. contradiction.
Qed.

(** Removing a variable that is set to the empty string changes nothing a
    reader of the environment can see. *)
Lemma getEnvOrDefault_delete_empty (env : gmap string string) (key k d : string) :
  env !! key = Some "" ->
  getEnvOrDefault (delete key env) k d = getEnvOrDefault env k d.
Proof.
  intros Hkey. unfold getEnvOrDefault, Getenv.
  destruct (decide (k = key)) as [-> | Hne].
  - rewrite lookup_delete_eq, Hkey. reflexivity.
  - rewrite lookup_delete_ne by congruence. reflexivity.
Qed.

(** C10, as stated, fails on the process environment.  With a .env file
    that defines JIRA_BASE_URL, a process environment in which the variable
    is set to the empty string makes [LoadConfig] fail with "JIRA_BASE_URL is
    required": the loader leaves a variable that is already defined alone.
    The same process environment without the variable loads: the loader
    fills it in from the file. *)
Lemma LoadConfig_empty_is_not_absent :
  emptyURLEnv !! "JIRA_BASE_URL" = Some "" /\
  absentURLEnv = delete "JIRA_BASE_URL" emptyURLEnv /\
  fst (LoadConfig dotenvRuntime emptyURLEnv) = Err (Errorf "JIRA_BASE_URL is required") /\
  fst (LoadConfig dotenvRuntime absentURLEnv) =
    Ok (Config.mk "https://jira.example.com" "alice@example.com" "s3cret" "PROJ" "8080") /\
  fst (LoadConfig dotenvRuntime absentURLEnv) <> fst (LoadConfig dotenvRuntime emptyURLEnv).
Proof.
  split; [reflexivity |]. split; [reflexivity |].
  split; [vm_compute; reflexivity |].
  split; [vm_compute; reflexivity |].
  vm_compute. discriminate.
Qed.

(** C10, amended to the environment the variables are read from, the one
    left by the .env loader: [getEnvOrDefault] returns the default for a
    variable that is unset or set to the empty string, and the variable's
    value otherwise.  Hence [LoadConfig] treats a variable that is empty in
    that environment exactly as one that is absent from it: two runs whose
    environments after the loader differ only by the removal of a variable
    set to the empty string return the same configuration or the same error.
    [LoadConfig] fails with "<NAME> is required" for the first required
    variable that is unset or empty after the loader, and when all four are
    set an unset or empty PORT gives port "8080". *)
Theorem empty_variable_reads_as_unset (rt : Runtime) :
  (forall env key d,
      (unset_or_empty env key -> getEnvOrDefault env key d = d) /\
      (forall v, env !! key = Some v -> v <> "" -> getEnvOrDefault env key d = v)) /\
  (forall env0 env0' key,
      fst (godotenv_Load rt env0) !! key = Some "" ->
      fst (godotenv_Load rt env0') = delete key (fst (godotenv_Load rt env0)) ->
      fst (LoadConfig rt env0') = fst (LoadConfig rt env0)) /\
  (forall env0,
      let env := fst (godotenv_Load rt env0) in
      let failure := fun name => fst (LoadConfig rt env0) = Err (Errorf (name +:+ " is required")) in
      (unset_or_empty env "JIRA_BASE_URL" -> failure "JIRA_BASE_URL") /\
      (~ unset_or_empty env "JIRA_BASE_URL" ->
       unset_or_empty env "JIRA_USERNAME" -> failure "JIRA_USERNAME") /\
      (~ unset_or_empty env "JIRA_BASE_URL" ->
       ~ unset_or_empty env "JIRA_USERNAME" ->
       unset_or_empty env "JIRA_API_TOKEN" -> failure "JIRA_API_TOKEN") /\
      (~ unset_or_empty env "JIRA_BASE_URL" ->
       ~ unset_or_empty env "JIRA_USERNAME" ->
       ~ unset_or_empty env "JIRA_API_TOKEN" ->
       unset_or_empty env "JIRA_PROJECT_KEY" -> failure "JIRA_PROJECT_KEY") /\
      (~ unset_or_empty env "JIRA_BASE_URL" ->
       ~ unset_or_empty env "JIRA_USERNAME" ->
       ~ unset_or_empty env "JIRA_API_TOKEN" ->
       ~ unset_or_empty env "JIRA_PROJECT_KEY" ->
       unset_or_empty env "PORT" ->
       exists config,
         fst (LoadConfig rt env0) = Ok config /\ Config.Port config = "8080")).
Proof.
  split; [| split].
  - intros env key d. split; [apply getEnvOrDefault_unset_or_empty |].
    intros v Hv Hne. rewrite getEnvOrDefault_set.
    + unfold Getenv. rewrite Hv. reflexivity.
    + intros [Habs | Habs]; congruence.
  - intros env0 env0' key Hkey Hdelete. unfold LoadConfig.
    destruct (godotenv_Load rt env0) as [env loadErr].
    destruct (godotenv_Load rt env0') as [env' loadErr'].
    cbn [fst] in *. subst env'. unfold configFromEnv.
    rewrite !(getEnvOrDefault_delete_empty env key) by exact Hkey. reflexivity.
  - intros env0. unfold LoadConfig.
    destruct (godotenv_Load rt env0) as [env loadErr]. cbn [fst].
    unfold configFromEnv. cbn [Config.JiraBaseURL Config.JiraUsername
                                 Config.JiraAPIToken Config.JiraProjectKey].
    repeat split; intros;
      repeat match goal with
        | H : unset_or_empty env _ |- _ =>
            first [ rewrite (proj2 (required_eqb env _) H)
                  | rewrite (getEnvOrDefault_unset_or_empty env _ _ H) ];
            clear H
        | H : ~ unset_or_empty env _ |- _ =>
            rewrite (required_eqb_false env _ H); clear H
        end;
      try reflexivity.
    eexists. split; reflexivity.
Qed.

Lemma empty_variable_reads_as_unset_witness :
  getEnvOrDefault emptyPortEnv "PORT" "8080" = "8080" /\
  fst (LoadConfig exampleRuntime absentURLEnv) = fst (LoadConfig exampleRuntime emptyURLEnv) /\
  fst (LoadConfig exampleRuntime emptyURLEnv) = Err (Errorf "JIRA_BASE_URL is required") /\
  exists config,
    fst (LoadConfig exampleRuntime emptyPortEnv) = Ok config /\ Config.Port config = "8080".
Proof.
  destruct (empty_variable_reads_as_unset exampleRuntime) as (Hget & Hdelete & Hload).
  assert (forall key v, completeEnv !! key = Some v -> v <> "" ->
                        ~ unset_or_empty emptyPortEnv key) as Hset.
  { intros key v Hv Hne [Habs | Habs];
      unfold emptyPortEnv in Habs;
      destruct (decide (key = "PORT")) as [-> | Hkey];
      try (vm_compute in Hv; discriminate Hv);
      rewrite lookup_insert_ne in Habs by congruence; congruence. }
  pose proof (Hload emptyURLEnv) as Hurl. cbv zeta in Hurl.
  destruct Hurl as (Hurl & _).
  pose proof (Hload emptyPortEnv) as Hport. cbv zeta in Hport.
  destruct Hport as (_ & _ & _ & _ & Hport).
  split; [| split; [| split]].
  - apply (proj1 (Hget emptyPortEnv "PORT" "8080")). right. reflexivity.
  - apply (Hdelete emptyURLEnv absentURLEnv "JIRA_BASE_URL"); reflexivity.
  - apply Hurl. right. reflexivity.
  - apply Hport.
    + apply (Hset _ "https://jira.example.com"); [reflexivity | discriminate].
    + apply (Hset _ "alice@example.com"); [reflexivity | discriminate].
    + apply (Hset _ "s3cret"); [reflexivity | discriminate].
    + apply (Hset _ "PROJ"); [reflexivity | discriminate].
    + right. reflexivity.
Defined.

(* ================================================================== *)
(** * Further properties of the client, the handlers and the configuration *)

Section ClientRuns.
Context (rt : Runtime).

Lemma newRequest_shape (c : Client) (method endpoint : string)
    (body : option CreateIssueRequest) (req : Request) :
  newRequest rt c method endpoint body = Ok req ->
  req = Request.mk method (Client.BaseURL c +:+ "/rest/api/3/" +:+ endpoint)
          [ ("Content-Type", "application/json");
            ("Accept", "application/json");
            ("Authorization",
             "Basic " +:+ EncodeToString rt (Client.Username c +:+ ":" +:+ Client.APIToken c)) ]
          (marshal_CreateIssueRequest <$> body).
Proof.
  unfold newRequest.
  destruct (NewRequest_error rt method _); [discriminate |].
  intros Hreq. injection Hreq as <-. reflexivity.
Qed.

(** The four operations, run step by step on a world. *)
Lemma ListTestCases_run (c : Client) (w : World) :
  ListTestCases rt c w =
    match newRequest rt c "GET" (searchEndpoint c) None with
    | Err e => (Err (Wrapf "failed to fetch test cases" e), w)
    | Ok req =>
        let w1 := snd (Do req w) in
        match backend w (sent w) req with
        | Err e =>
            (Err (Wrapf "failed to fetch test cases" (Wrapf "failed to make request" e)), w1)
        | Ok resp =>
            match handleResponse rt (Unmarshal_JiraResponse rt) resp JiraResponse.zero with
            | Err e =>
                if isDemoCredentials c
                then (let '(mock, w') := getMockTestCases rt c w1 in (Ok mock, w'))
                else (Err e, w1)
            | Ok jiraResp =>
                (Ok (Some (map issueToTestCase (elems (JiraResponse.Issues jiraResp)))), w1)
            end
        end
    end.
Proof.
  unfold ListTestCases, mbind, M_bind.
  destruct (newRequest rt c "GET" (searchEndpoint c) None) as [req | e] eqn:Hbuild.
  - rewrite (makeRequest_sent rt _ _ _ _ _ _ Hbuild).
    destruct (backend w (sent w) req) as [resp | e]; [| reflexivity].
    destruct (handleResponse rt _ resp _); [reflexivity |].
    destruct (isDemoCredentials c); reflexivity.
  - rewrite (makeRequest_unbuilt rt _ _ _ _ _ _ Hbuild). reflexivity.
Qed.

Lemma CreateTestCase_run (c : Client) (tc : TestCase) (w : World) :
  isDemoCredentials c = false ->
  CreateTestCase rt c tc w =
    match newRequest rt c "POST" "issue" (Some (testCaseCreateReq c tc)) with
    | Err e => (Err (Wrapf "failed to create test case" e), w)
    | Ok req =>
        let w1 := snd (Do req w) in
        match backend w (sent w) req with
        | Err e =>
            (Err (Wrapf "failed to create test case" (Wrapf "failed to make request" e)), w1)
        | Ok resp =>
            match handleResponse rt (Unmarshal_CreateIssueResponse rt) resp
                    CreateIssueResponse.zero with
            | Err e => (Err e, w1)
            | Ok createResp =>
                (Ok (TestCase.mk (CreateIssueResponse.ID createResp)
                       (CreateIssueResponse.Key createResp)
                       (TestCase.Summary tc) (TestCase.Description tc) "To Do"
                       (TestCase.Priority tc) (TestCase.Labels tc) (TestCase.Components tc)
                       (TestCase.TestType tc) (clock w (readouts w)) (TestCase.UpdatedDate tc)
                       (TestCase.Reporter tc) (TestCase.Assignee tc)
                       (TestCase.CustomFields tc)),
                 snd (time_Now w1))
            end
        end
    end.
Proof.
  intros Hreal. unfold CreateTestCase, mbind, M_bind. rewrite Hreal.
  destruct (newRequest rt c "POST" "issue" (Some (testCaseCreateReq c tc)))
    as [req | e] eqn:Hbuild.
  - rewrite (makeRequest_sent rt _ _ _ _ _ _ Hbuild).
    destruct (backend w (sent w) req) as [resp | e]; [| reflexivity].
    destruct (handleResponse rt _ resp _); reflexivity.
  - rewrite (makeRequest_unbuilt rt _ _ _ _ _ _ Hbuild). reflexivity.
Qed.

Lemma CreateTestExecution_run (c : Client) (te : TestExecution) (w : World) :
  isDemoCredentials c = false ->
  CreateTestExecution rt c te w =
    match newRequest rt c "POST" "issue" (Some (testExecutionCreateReq c te)) with
    | Err e => (Err (Wrapf "failed to create test execution" e), w)
    | Ok req =>
        let w1 := snd (Do req w) in
        match backend w (sent w) req with
        | Err e =>
            (Err (Wrapf "failed to create test execution"
                    (Wrapf "failed to make request" e)), w1)
        | Ok resp =>
            match handleResponse rt (Unmarshal_CreateIssueResponse rt) resp
                    CreateIssueResponse.zero with
            | Err e => (Err e, w1)
            | Ok createResp =>
                (Ok (TestExecution.mk (CreateIssueResponse.ID createResp)
                       (CreateIssueResponse.Key createResp)
                       (TestExecution.Summary te) (TestExecution.Description te) "To Do"
                       (TestExecution.TestCases te) "TODO" (clock w (readouts w))
                       (TestExecution.EndDate te) (TestExecution.ExecutedBy te)
                       (TestExecution.Environment te) (TestExecution.TestResults te)
                       (TestExecution.CustomFields te)),
                 snd (time_Now w1))
            end
        end
    end.
Proof.
  intros Hreal. unfold CreateTestExecution, mbind, M_bind. rewrite Hreal.
  destruct (newRequest rt c "POST" "issue" (Some (testExecutionCreateReq c te)))
    as [req | e] eqn:Hbuild.
  - rewrite (makeRequest_sent rt _ _ _ _ _ _ Hbuild).
    destruct (backend w (sent w) req) as [resp | e]; [| reflexivity].
    destruct (handleResponse rt _ resp _); reflexivity.
  - rewrite (makeRequest_unbuilt rt _ _ _ _ _ _ Hbuild). reflexivity.
Qed.

Lemma GetTestExecution_run (c : Client) (key : string) (w : World) :
  isDemoCredentials c = false ->
  GetTestExecution rt c key w =
    match newRequest rt c "GET" ("issue/" +:+ key) None with
    | Err e => (Err (Wrapf "failed to fetch test execution" e), w)
    | Ok req =>
        let w1 := snd (Do req w) in
        match backend w (sent w) req with
        | Err e =>
            (Err (Wrapf "failed to fetch test execution"
                    (Wrapf "failed to make request" e)), w1)
        | Ok resp =>
            match handleResponse rt (Unmarshal_JiraIssue rt) resp JiraIssue.zero with
            | Err e => (Err e, w1)
            | Ok issue =>
                (Ok (TestExecution.mk (JiraIssue.ID issue) (JiraIssue.Key issue)
                       (IssueFields.Summary (JiraIssue.Fields issue))
                       (IssueFields.Description (JiraIssue.Fields issue))
                       (Status.Name (IssueFields.Status (JiraIssue.Fields issue)))
                       None "" zeroTime zeroTime "" "" None None),
                 w1)
            end
        end
    end.
Proof.
  intros Hreal. unfold GetTestExecution, mbind, M_bind. rewrite Hreal.
  destruct (newRequest rt c "GET" ("issue/" +:+ key) None) as [req | e] eqn:Hbuild.
  - rewrite (makeRequest_sent rt _ _ _ _ _ _ Hbuild).
    destruct (backend w (sent w) req) as [resp | e]; [| reflexivity].
    destruct (handleResponse rt _ resp _); reflexivity.
  - rewrite (makeRequest_unbuilt rt _ _ _ _ _ _ Hbuild). reflexivity.
Qed.

End ClientRuns.

Section Exchanges.
Context (rt : Runtime).

Ltac settle_exchange :=
  unfold extends_by, getMockTestCases, createMockTestCase, createMockTestExecution,
    getMockTestExecution, mbind, M_bind, mret, M_ret, time_Now;
  cbn;
  repeat match goal with
    | |- _ /\ _ => split
    | |- _ <= _ => lia
    | |- length _ <= 1 => cbn; lia
    | |- _ = (_ ++ [])%list => symmetry; apply app_nil_r
    | |- forall _, False -> _ => intros ? []
    | |- _ => reflexivity
    end.

Ltac settle_request Hbuild :=
  let req' := fresh "req" in
  let Hin := fresh "Hin" in
  intros req' [<- | []];
  rewrite (newRequest_shape rt _ _ _ _ _ Hbuild);
  unfold well_formed; cbn;
  (split; [eexists; reflexivity |]);
  (split; [reflexivity |]);
  split; first [discriminate | reflexivity | auto].

Lemma ListTestCases_exchange (c : Client) (w : World) :
  exists new,
    extends_by w (snd (ListTestCases rt c w)) new /\
    length new <= 1 /\
    forall req, In req new -> well_formed rt c req.
Proof.
  rewrite ListTestCases_run.
  destruct (newRequest rt c "GET" (searchEndpoint c) None) as [req | e] eqn:Hbuild.
  - exists [req].
    destruct (backend w (sent w) req) as [resp | e];
      [destruct (handleResponse rt _ resp _); [| destruct (isDemoCredentials c)] |];
      settle_exchange; settle_request Hbuild.
  - exists []. settle_exchange.
Qed.

Lemma CreateTestCase_exchange (c : Client) (tc : TestCase) (w : World) :
  exists new,
    extends_by w (snd (CreateTestCase rt c tc w)) new /\
    length new <= 1 /\
    forall req, In req new -> well_formed rt c req.
Proof.
  destruct (isDemoCredentials c) eqn:Hcred.
  - exists []. unfold CreateTestCase. rewrite Hcred. settle_exchange.
  - rewrite (CreateTestCase_run rt c tc w Hcred).
    destruct (newRequest rt c "POST" "issue" (Some (testCaseCreateReq c tc)))
      as [req | e] eqn:Hbuild.
    + exists [req].
      destruct (backend w (sent w) req) as [resp | e];
        [destruct (handleResponse rt _ resp _) |];
        settle_exchange; settle_request Hbuild.
    + exists []. settle_exchange.
Qed.

Lemma CreateTestExecution_exchange (c : Client) (te : TestExecution) (w : World) :
  exists new,
    extends_by w (snd (CreateTestExecution rt c te w)) new /\
    length new <= 1 /\
    forall req, In req new -> well_formed rt c req.
Proof.
  destruct (isDemoCredentials c) eqn:Hcred.
  - exists []. unfold CreateTestExecution. rewrite Hcred. settle_exchange.
  - rewrite (CreateTestExecution_run rt c te w Hcred).
    destruct (newRequest rt c "POST" "issue" (Some (testExecutionCreateReq c te)))
      as [req | e] eqn:Hbuild.
    + exists [req].
      destruct (backend w (sent w) req) as [resp | e];
        [destruct (handleResponse rt _ resp _) |];
        settle_exchange; settle_request Hbuild.
    + exists []. settle_exchange.
Qed.

Lemma GetTestExecution_exchange (c : Client) (key : string) (w : World) :
  exists new,
    extends_by w (snd (GetTestExecution rt c key w)) new /\
    length new <= 1 /\
    forall req, In req new -> well_formed rt c req.
Proof.
  destruct (isDemoCredentials c) eqn:Hcred.
  - exists []. unfold GetTestExecution. rewrite Hcred. settle_exchange.
  - rewrite (GetTestExecution_run rt c key w Hcred).
    destruct (newRequest rt c "GET" ("issue/" +:+ key) None) as [req | e] eqn:Hbuild.
    + exists [req].
      destruct (backend w (sent w) req) as [resp | e];
        [destruct (handleResponse rt _ resp _) |];
        settle_exchange; settle_request Hbuild.
    + exists []. settle_exchange.
Qed.

End Exchanges.

(* ------------------------------------------------------------------ *)
(** ** One call to the HTTP client per operation *)

(** X1: each of the four client operations calls [HTTPClient.Do] at most
    once.  In the log of these calls the earlier requests stay in place, the
    new one comes last, and clock and backend are left as they were.  (The
    log holds the requests the operations hand to the HTTP client; what the
    HTTP client itself puts on the network while it follows a redirect is
    not in it.) *)
Theorem one_request_per_operation (rt : Runtime) (c : Client) (w : World) :
  (exists new,
      extends_by w (snd (ListTestCases rt c w)) new /\ length new <= 1) /\
  (forall tc, exists new,
      extends_by w (snd (CreateTestCase rt c tc w)) new /\ length new <= 1) /\
  (forall te, exists new,
      extends_by w (snd (CreateTestExecution rt c te w)) new /\ length new <= 1) /\
  (forall key, exists new,
      extends_by w (snd (GetTestExecution rt c key w)) new /\ length new <= 1).
Proof.
  split; [| split; [| split]].
  - destruct (ListTestCases_exchange rt c w) as (new & Hext & Hlen & _). eauto.
  - intros tc. destruct (CreateTestCase_exchange rt c tc w) as (new & Hext & Hlen & _). eauto.
  - intros te. destruct (CreateTestExecution_exchange rt c te w) as (new & Hext & Hlen & _). eauto.
  - intros key. destruct (GetTestExecution_exchange rt c key w) as (new & Hext & Hlen & _). eauto.
Qed.

(** X2: every request an operation hands to [HTTPClient.Do] is addressed
    below <base URL>/rest/api/3/, carries the JSON content-type and accept
    headers and the basic-authentication header of the client's user name
    and token, and has a body exactly when it is not a GET.  (This is about
    the requests the operations build, the entries of the log of calls; the
    requests the HTTP client derives from them when it follows a redirect are
    its own.) *)
Theorem requests_are_authenticated (rt : Runtime) (c : Client) (w : World) :
  (forall req,
      In req (sent (snd (ListTestCases rt c w))) ->
      In req (sent w) \/ well_formed rt c req) /\
  (forall tc req,
      In req (sent (snd (CreateTestCase rt c tc w))) ->
      In req (sent w) \/ well_formed rt c req) /\
  (forall te req,
      In req (sent (snd (CreateTestExecution rt c te w))) ->
      In req (sent w) \/ well_formed rt c req) /\
  (forall key req,
      In req (sent (snd (GetTestExecution rt c key w))) ->
      In req (sent w) \/ well_formed rt c req).
Proof.
  assert (forall w' new,
             extends_by w w' new ->
             (forall req, In req new -> well_formed rt c req) ->
             forall req, In req (sent w') -> In req (sent w) \/ well_formed rt c req)
    as Hstep.
  { intros w' new (_ & _ & Hsent & _) Hnew req Hin.
    rewrite Hsent in Hin. apply in_app_or in Hin. destruct Hin; auto. }
  split; [| split; [| split]].
  - destruct (ListTestCases_exchange rt c w) as (new & Hext & _ & Hnew). eauto.
  - intros tc. destruct (CreateTestCase_exchange rt c tc w) as (new & Hext & _ & Hnew). eauto.
  - intros te. destruct (CreateTestExecution_exchange rt c te w) as (new & Hext & _ & Hnew). eauto.
  - intros key. destruct (GetTestExecution_exchange rt c key w) as (new & Hext & _ & Hnew). eauto.
Qed.

Lemma requests_are_authenticated_witness :
  let w := worldAt 1700000000%Z (answering 201 "{}") in
  Forall
    (fun req =>
       Request.URL req = "https://jira.example.com/rest/api/3/issue" /\
       assoc "Authorization" (Request.Header req) = Some "Basic alice@example.com:s3cret")
    (sent (snd (CreateTestCase exampleRuntime realClient loginTest w))).
Proof.
  intros w. apply List.Forall_forall. intros req Hin.
  destruct (requests_are_authenticated exampleRuntime realClient w) as (_ & Hcreate & _).
  destruct (Hcreate loginTest req Hin) as [[] | (_ & Hheader & _)].
  rewrite Hheader. split; [| reflexivity].
  vm_compute in Hin. destruct Hin as [<- | []]. reflexivity.
Defined.

(* ------------------------------------------------------------------ *)
(** ** Results and errors with real credentials *)

Section RealCredentials.
Context (rt : Runtime).

Lemma handleResponse_Ok_not_failed {T : Type} (unmarshal : string -> Result T error)
    (resp : Response) (target v : T) :
  handleResponse rt unmarshal resp target = Ok v ->
  failed_response unmarshal resp = false.
Proof.
  intros Hok.
  destruct (failed_response unmarshal resp) eqn:Hf; [| reflexivity].
  apply (handleResponse_failed rt unmarshal resp target) in Hf.
  destruct Hf as [e He]. congruence.
Qed.

Lemma handleResponse_status {T : Type} (unmarshal : string -> Result T error)
    (resp : Response) (target : T) (body : string) :
  Response.Body resp = Ok body ->
  (400 <= Response.StatusCode resp)%Z ->
  handleResponse rt unmarshal resp target
  = Err (status_error rt (Response.StatusCode resp) body).
Proof.
  intros Hbody Hstatus. unfold handleResponse, status_error. rewrite Hbody.
  apply Z.leb_le in Hstatus. rewrite Hstatus.
  destruct (Unmarshal_ErrorResponse rt body); reflexivity.
Qed.

Lemma handleResponse_empty {T : Type} (unmarshal : string -> Result T error)
    (resp : Response) (target : T) :
  Response.Body resp = Ok "" ->
  (Response.StatusCode resp < 400)%Z ->
  handleResponse rt unmarshal resp target = Ok target.
Proof.
  intros Hbody Hstatus. unfold handleResponse. rewrite Hbody.
  apply Z.leb_gt in Hstatus. rewrite Hstatus. reflexivity.
Qed.

Ltac trace_run Hreal :=
  repeat match goal with
    | |- context [isDemoCredentials _] => rewrite Hreal
    | |- context [match newRequest ?r ?c ?m ?ep ?b with _ => _ end] =>
        let Hbuild := fresh "Hbuild" in
        destruct (newRequest r c m ep b) as [?req | ?e] eqn:Hbuild
    | |- context [match backend ?w ?l ?q with _ => _ end] =>
        let Hback := fresh "Hback" in
        destruct (backend w l q) as [?resp | ?e] eqn:Hback
    | |- context [match handleResponse ?r ?u ?p ?t with _ => _ end] =>
        let Hhandled := fresh "Hhandled" in
        destruct (handleResponse r u p t) as [?v | ?e] eqn:Hhandled
    end;
  cbn [fst snd].

(** X3: with real credentials nothing is made up.  Whenever one of the four
    operations returns a result, it called [HTTPClient.Do] exactly once and
    the call returned a response that did not fail: readable, status below
    400, and decodable unless empty. *)
Theorem results_come_from_backend (c : Client) (w : World) :
  isDemoCredentials c = false ->
  (forall tcs,
      fst (ListTestCases rt c w) = Ok tcs ->
      exists req resp,
        sent (snd (ListTestCases rt c w)) = (sent w ++ [req])%list /\
        backend w (sent w) req = Ok resp /\
        failed_response (Unmarshal_JiraResponse rt) resp = false) /\
  (forall tc created,
      fst (CreateTestCase rt c tc w) = Ok created ->
      exists req resp,
        sent (snd (CreateTestCase rt c tc w)) = (sent w ++ [req])%list /\
        backend w (sent w) req = Ok resp /\
        failed_response (Unmarshal_CreateIssueResponse rt) resp = false) /\
  (forall te created,
      fst (CreateTestExecution rt c te w) = Ok created ->
      exists req resp,
        sent (snd (CreateTestExecution rt c te w)) = (sent w ++ [req])%list /\
        backend w (sent w) req = Ok resp /\
        failed_response (Unmarshal_CreateIssueResponse rt) resp = false) /\
  (forall key found,
      fst (GetTestExecution rt c key w) = Ok found ->
      exists req resp,
        sent (snd (GetTestExecution rt c key w)) = (sent w ++ [req])%list /\
        backend w (sent w) req = Ok resp /\
        failed_response (Unmarshal_JiraIssue rt) resp = false).
Proof.
  intros Hreal. split; [| split; [| split]].
  - intros tcs. rewrite ListTestCases_run. trace_run Hreal; try discriminate.
    intros _. exists req, resp. repeat split; eauto using handleResponse_Ok_not_failed.
  - intros tc created. rewrite (CreateTestCase_run rt c tc w Hreal).
    trace_run Hreal; try discriminate.
    intros _. exists req, resp. repeat split; eauto using handleResponse_Ok_not_failed.
  - intros te created. rewrite (CreateTestExecution_run rt c te w Hreal).
    trace_run Hreal; try discriminate.
    intros _. exists req, resp. repeat split; eauto using handleResponse_Ok_not_failed.
  - intros key found. rewrite (GetTestExecution_run rt c key w Hreal).
    trace_run Hreal; try discriminate.
    intros _. exists req, resp. repeat split; eauto using handleResponse_Ok_not_failed.
Qed.

(** X4: with real credentials a response with status 400 or above makes each
    operation fail with the error [handleResponse] builds from it, unwrapped:
    the status code together with the backend's decoded error messages, or
    with the raw body when that does not decode. *)
Theorem backend_status_is_reported (c : Client) (w : World)
    (req : Request) (resp : Response) (body : string) :
  isDemoCredentials c = false ->
  backend w (sent w) req = Ok resp ->
  Response.Body resp = Ok body ->
  (400 <= Response.StatusCode resp)%Z ->
  let reported := status_error rt (Response.StatusCode resp) body in
  (newRequest rt c "GET" (searchEndpoint c) None = Ok req ->
   fst (ListTestCases rt c w) = Err reported) /\
  (forall tc,
      newRequest rt c "POST" "issue" (Some (testCaseCreateReq c tc)) = Ok req ->
      fst (CreateTestCase rt c tc w) = Err reported) /\
  (forall te,
      newRequest rt c "POST" "issue" (Some (testExecutionCreateReq c te)) = Ok req ->
      fst (CreateTestExecution rt c te w) = Err reported) /\
  (forall key,
      newRequest rt c "GET" ("issue/" +:+ key) None = Ok req ->
      fst (GetTestExecution rt c key w) = Err reported).
Proof.
  intros Hreal Hback Hbody Hstatus. cbv zeta.
  split; [| split; [| split]].
  - intros Hbuild. rewrite ListTestCases_run, Hbuild. cbv zeta.
    rewrite Hback, (handleResponse_status _ _ _ _ Hbody Hstatus), Hreal. reflexivity.
  - intros tc Hbuild. rewrite (CreateTestCase_run rt c tc w Hreal), Hbuild. cbv zeta.
    rewrite Hback, (handleResponse_status _ _ _ _ Hbody Hstatus). reflexivity.
  - intros te Hbuild. rewrite (CreateTestExecution_run rt c te w Hreal), Hbuild. cbv zeta.
    rewrite Hback, (handleResponse_status _ _ _ _ Hbody Hstatus). reflexivity.
  - intros key Hbuild. rewrite (GetTestExecution_run rt c key w Hreal), Hbuild. cbv zeta.
    rewrite Hback, (handleResponse_status _ _ _ _ Hbody Hstatus). reflexivity.
Qed.

End RealCredentials.

Lemma results_come_from_backend_witness :
  let w := worldAt 1700000000%Z (answering 200 "{}") in
  exists req resp,
    sent (snd (ListTestCases exampleRuntime realClient w)) = [req] /\
    backend w (sent w) req = Ok resp /\
    failed_response (Unmarshal_JiraResponse exampleRuntime) resp = false.
Proof.
  intros w.
  destruct (results_come_from_backend exampleRuntime realClient w eq_refl) as (Hlist & _).
  exact (Hlist (Some []) eq_refl).
Defined.

Lemma backend_status_is_reported_witness :
  fst (GetTestExecution exampleRuntime realClient "EXEC-1"
         (worldAt 1700000000%Z (answering 503 "Service Unavailable")))
  = Err (HTTPStatus 503 "Service Unavailable").
Proof.
  edestruct (backend_status_is_reported exampleRuntime realClient
               (worldAt 1700000000%Z (answering 503 "Service Unavailable")))
    as (_ & _ & _ & Hget);
    [reflexivity | reflexivity | reflexivity | discriminate |].
  apply Hget. reflexivity.
Defined.

(* ------------------------------------------------------------------ *)
(** ** Creation with real credentials *)



(** X6: an answer with a status below 400 and an empty body counts as
    success and leaves the declared target at its zero value.  With real
    credentials, when the request of an operation can be built and the call
    of [HTTPClient.Do] on it returns such an answer, the listing is empty
    (and not nil), a creation returns its entity with an empty id and an
    empty key, and a fetched execution is the zero value: its key is empty,
    for every key whose request can be built. *)
Theorem empty_answer_is_success (rt : Runtime) (c : Client) (w : World) :
  isDemoCredentials c = false ->
  let empty_answer := fun req : Request =>
    exists resp,
      backend w (sent w) req = Ok resp /\
      Response.Body resp = Ok "" /\
      (Response.StatusCode resp < 400)%Z in
  (forall req,
      newRequest rt c "GET" (searchEndpoint c) None = Ok req ->
      empty_answer req ->
      fst (ListTestCases rt c w) = Ok (Some [])) /\
  (forall tc req,
      newRequest rt c "POST" "issue" (Some (testCaseCreateReq c tc)) = Ok req ->
      empty_answer req ->
      exists created,
        fst (CreateTestCase rt c tc w) = Ok created /\
        TestCase.ID created = "" /\ TestCase.Key created = "" /\
        TestCase.Status created = "To Do") /\
  (forall te req,
      newRequest rt c "POST" "issue" (Some (testExecutionCreateReq c te)) = Ok req ->
      empty_answer req ->
      exists created,
        fst (CreateTestExecution rt c te w) = Ok created /\
        TestExecution.ID created = "" /\ TestExecution.Key created = "") /\
  (forall key req,
      newRequest rt c "GET" ("issue/" +:+ key) None = Ok req ->
      empty_answer req ->
      fst (GetTestExecution rt c key w) = Ok TestExecution.zero).
Proof.
  intros Hreal empty_answer.
  split; [| split; [| split]].
  - intros req Hbuild (resp & Hback & Hbody & Hstatus).
    rewrite ListTestCases_run, Hbuild. cbv zeta.
    rewrite Hback, (handleResponse_empty rt _ resp _ Hbody Hstatus). reflexivity.
  - intros tc req Hbuild (resp & Hback & Hbody & Hstatus).
    rewrite (CreateTestCase_run rt c tc w Hreal), Hbuild. cbv zeta.
    rewrite Hback, (handleResponse_empty rt _ resp _ Hbody Hstatus).
    eexists. split; [reflexivity | auto].
  - intros te req Hbuild (resp & Hback & Hbody & Hstatus).
    rewrite (CreateTestExecution_run rt c te w Hreal), Hbuild. cbv zeta.
    rewrite Hback, (handleResponse_empty rt _ resp _ Hbody Hstatus).
    eexists. split; [reflexivity | auto].
  - intros key req Hbuild (resp & Hback & Hbody & Hstatus).
    rewrite (GetTestExecution_run rt c key w Hreal), Hbuild. cbv zeta.
    rewrite Hback, (handleResponse_empty rt _ resp _ Hbody Hstatus). reflexivity.
Qed.

Lemma empty_answer_is_success_witness :
  let w := worldAt 1700000000%Z (answering 204 "") in
  fst (ListTestCases strictRuntime realClient w) = Ok (Some []) /\
  fst (GetTestExecution strictRuntime realClient "EXEC-1" w) = Ok TestExecution.zero.
Proof.
  cbv zeta.
  destruct (empty_answer_is_success strictRuntime realClient
              (worldAt 1700000000%Z (answering 204 "")) eq_refl)
    as (Hlist & _ & _ & Hget).
  split.
  - eapply Hlist; [reflexivity |].
    eexists. split; [reflexivity |]. split; [reflexivity | reflexivity].
  - eapply (Hget "EXEC-1"); [reflexivity |].
    eexists. split; [reflexivity |]. split; [reflexivity | reflexivity].
Defined.

(** A key that is no valid URL escape: the request is never built, nothing
    is handed to the HTTP client, and the error of [http.NewRequest] comes
    back wrapped. *)
Example GetTestExecution_unbuilt_request :
  let w := worldAt 1700000000%Z (answering 204 "") in
  GetTestExecution strictRuntime realClient "%zz" w
  = (Err (Wrapf "failed to fetch test execution"
            (Wrapf "failed to create request" (LibraryError "invalid URL escape"))),
     w).
Proof. reflexivity. Qed.

(* ------------------------------------------------------------------ *)
(** ** Demo credentials: creating an execution, and the POST handlers *)

(** X7: under demo credentials [CreateTestExecution] sends nothing and
    returns the input with id "10005", key "EXEC-1", status "To Do",
    execution status "TODO", the current time as start date and
    "Demo User" as executor; the summary, description, test cases, end date,
    environment, results and custom fields are the input's. *)
Theorem CreateTestExecution_demo (rt : Runtime) (c : Client) (te : TestExecution)
    (w : World) :
  isDemoCredentials c = true ->
  let out := CreateTestExecution rt c te w in
  fst out =
    Ok (TestExecution.mk "10005" "EXEC-1" (TestExecution.Summary te)
          (TestExecution.Description te) "To Do" (TestExecution.TestCases te) "TODO"
          (clock w (readouts w)) (TestExecution.EndDate te) "Demo User"
          (TestExecution.Environment te) (TestExecution.TestResults te)
          (TestExecution.CustomFields te)) /\
  sent (snd out) = sent w /\
  readouts (snd out) = S (readouts w).
Proof.
  intros Hdemo. unfold CreateTestExecution. rewrite Hdemo. cbn. auto.
Qed.

Lemma CreateTestExecution_demo_witness :
  let out := CreateTestExecution exampleRuntime demoClient sprintRun
               (worldAt 1700000000%Z unreachable) in
  (TestExecution.Key <$> (match fst out with Ok te => Some te | Err _ => None end))
    = Some "EXEC-1" /\
  sent (snd out) = [].
Proof.
  destruct (CreateTestExecution_demo exampleRuntime demoClient sprintRun
              (worldAt 1700000000%Z unreachable) eq_refl) as (Hout & Hsent & _).
  cbv zeta. rewrite Hout. split; [reflexivity | exact Hsent].
Defined.

(** X8: under demo credentials a POST with a valid body is always answered
    201, without a request to the backend.  For /api/testexecutions (summary
    present, at least one test case) the entity has key "EXEC-1", status
    "To Do" and execution status "TODO" and keeps the body's test cases and
    environment; for /api/testcases (summary present) it has key "TEST-4",
    status "To Do" and reporter "Demo User". *)
Theorem demo_posts_are_created (rt : Runtime) (jiraClient : Client) (ctx : Context.t)
    (w : World) :
  isDemoCredentials jiraClient = true ->
  (forall te,
      Decode_TestExecution rt (Context.Body ctx) = Ok te ->
      TestExecution.Summary te <> "" ->
      0 < len (TestExecution.TestCases te) ->
      let out := createTestExecution rt jiraClient ctx w in
      exists created,
        fst out = Reply.mk 201
                    [ ("testExecution", ATestExecution created);
                      ("message", AString "Test execution created successfully") ] /\
        TestExecution.Key created = "EXEC-1" /\
        TestExecution.Status created = "To Do" /\
        TestExecution.ExecutionStatus created = "TODO" /\
        TestExecution.TestCases created = TestExecution.TestCases te /\
        TestExecution.Environment created = TestExecution.Environment te /\
        sent (snd out) = sent w) /\
  (forall tc,
      Decode_TestCase rt (Context.Body ctx) = Ok tc ->
      TestCase.Summary tc <> "" ->
      let out := createTestCase rt jiraClient ctx w in
      exists created,
        fst out = Reply.mk 201
                    [ ("testCase", ATestCase created);
                      ("message", AString "Test case created successfully") ] /\
        TestCase.Key created = "TEST-4" /\
        TestCase.Status created = "To Do" /\
        TestCase.Reporter created = "Demo User" /\
        TestCase.Summary created = TestCase.Summary tc /\
        sent (snd out) = sent w).
Proof.
  intros Hdemo. split.
  - intros te Hdecode Hsummary Hcases. cbv zeta.
    apply String.eqb_neq in Hsummary.
    unfold createTestExecution, ShouldBindJSON, validate_TestExecution.
    rewrite Hdecode, Hsummary.
    destruct (TestExecution.TestCases te) as [[| k ks] |] eqn:Htcs;
      try (cbn in Hcases; lia).
    cbn. rewrite Hsummary, Htcs. cbn.
    unfold mbind, M_bind, CreateTestExecution. rewrite Hdemo. cbn.
    eexists. split; [reflexivity |]. cbn. rewrite Htcs. repeat split.
  - intros tc Hdecode Hsummary. cbv zeta.
    apply String.eqb_neq in Hsummary.
    unfold createTestCase, ShouldBindJSON, validate_TestCase.
    rewrite Hdecode, Hsummary. cbn. rewrite Hsummary.
    unfold mbind, M_bind, CreateTestCase. rewrite Hdemo. cbn.
    eexists. split; [reflexivity |]. cbn. repeat split.
Qed.

Lemma demo_posts_are_created_witness :
  let out := createTestExecution scenarioRuntime demoClient (Context.mk [] sprintBody)
               (worldAt 1700000000%Z unreachable) in
  Reply.Code (fst out) = 201%Z /\ sent (snd out) = [].
Proof.
  destruct (demo_posts_are_created scenarioRuntime demoClient (Context.mk [] sprintBody)
              (worldAt 1700000000%Z unreachable) eq_refl) as (Hexec & _).
  destruct (Hexec sprintRun eq_refl ltac:(discriminate) ltac:(cbn; lia))
    as (created & Hout & _ & _ & _ & _ & _ & Hsent).
  cbv zeta. rewrite Hout. split; [reflexivity | exact Hsent].
Defined.

(* ------------------------------------------------------------------ *)
(** ** What is read back from the backend *)



(** X10: when the search is answered, the listing has one test case per
    issue of the answer, in the answer's order.  Each takes its id, key,
    summary, description, labels, status, priority, reporter and assignee
    from its issue and has no test type, no components and the zero created
    date; the handler of GET /api/testcases replies 200 with that list and
    the number of issues as count. *)
Theorem listing_follows_the_issues (rt : Runtime) (c : Client) (ctx : Context.t)
    (w : World) (req : Request) (resp : Response) (jiraResp : JiraResponse) :
  newRequest rt c "GET" (searchEndpoint c) None = Ok req ->
  backend w (sent w) req = Ok resp ->
  handleResponse rt (Unmarshal_JiraResponse rt) resp JiraResponse.zero = Ok jiraResp ->
  let issues := elems (JiraResponse.Issues jiraResp) in
  exists tcs,
    fst (ListTestCases rt c w) = Ok (Some tcs) /\
    length tcs = length issues /\
    (forall i issue,
        nth_error issues i = Some issue ->
        exists tc,
          nth_error tcs i = Some tc /\
          TestCase.ID tc = JiraIssue.ID issue /\
          TestCase.Key tc = JiraIssue.Key issue /\
          TestCase.Summary tc = IssueFields.Summary (JiraIssue.Fields issue) /\
          TestCase.Description tc = IssueFields.Description (JiraIssue.Fields issue) /\
          TestCase.Labels tc = IssueFields.Labels (JiraIssue.Fields issue) /\
          TestCase.Status tc = Status.Name (IssueFields.Status (JiraIssue.Fields issue)) /\
          TestCase.Priority tc = Priority.Name (IssueFields.Priority (JiraIssue.Fields issue)) /\
          TestCase.Reporter tc
          = User.DisplayName (IssueFields.Reporter (JiraIssue.Fields issue)) /\
          TestCase.Assignee tc
          = User.DisplayName (IssueFields.Assignee (JiraIssue.Fields issue)) /\
          TestCase.TestType tc = "" /\
          TestCase.Components tc = None /\
          TestCase.CreatedDate tc = zeroTime) /\
    fst (getTestCases rt c ctx w)
    = Reply.mk 200
        [ ("testCases", ATestCases (Some tcs));
          ("count", AInt (Z.of_nat (length issues)));
          ("message", AString "Test cases retrieved successfully") ].
Proof.
  intros Hbuild Hback Hhandled issues.
  assert (ListTestCases rt c w
          = (Ok (Some (map issueToTestCase issues)), snd (Do req w))) as Hrun.
  { rewrite ListTestCases_run, Hbuild. cbv zeta. rewrite Hback, Hhandled. reflexivity. }
  exists (map issueToTestCase issues).
  split; [rewrite Hrun; reflexivity |].
  split; [apply length_map |].
  split.
  - intros i issue Hi. exists (issueToTestCase issue).
    split; [apply map_nth_error; exact Hi |]. cbn. repeat split.
  - unfold getTestCases, mbind, M_bind. rewrite Hrun. cbn.
    unfold len. cbn. rewrite length_map. reflexivity.
Qed.

Lemma listing_follows_the_issues_witness :
  let w := worldAt 1700000000%Z (answering 200 twoIssuesBody) in
  let listed :=
    [ TestCase.mk "10010" "PROJ-1" "Login works"
        "Valid credentials open the dashboard" "In Progress" "High"
        (Some ["login"; "smoke"]) None "" zeroTime zeroTime "Alice" "Bob" None;
      TestCase.mk "10011" "PROJ-2" "Logout works" "" "Done" "Low"
        None None "" zeroTime zeroTime "Alice" "" None ] in
  fst (ListTestCases issuesRuntime realClient w) = Ok (Some listed) /\
  fst (getTestCases issuesRuntime realClient (Context.mk [] "") w)
  = Reply.mk 200
      [ ("testCases", ATestCases (Some listed));
        ("count", AInt 2);
        ("message", AString "Test cases retrieved successfully") ].
Proof.
  cbv zeta.
  edestruct listing_follows_the_issues
    with (rt := issuesRuntime) (c := realClient) (ctx := Context.mk [] "")
         (w := worldAt 1700000000%Z (answering 200 twoIssuesBody)) (jiraResp := twoIssues)
    as (tcs & Hlist & _ & _ & Hreply); [reflexivity | reflexivity | reflexivity |].
  rewrite Hreply, Hlist.
  assert (Some tcs
          = Some (map issueToTestCase (elems (JiraResponse.Issues twoIssues)))) as ->.
  { apply (f_equal (fun r : Result (slice TestCase) error =>
                      match r with Ok l => l | Err _ => None end)) in Hlist.
    symmetry. exact Hlist. }
  split; reflexivity.
Defined.

(** X11: the demo fallback needs a response to fall back from.  Whatever the
    credentials, demo credentials included, when the transport fails or the
    request cannot be built [ListTestCases] returns the wrapped error without
    reading the clock, and the handler of GET /api/testcases replies 500. *)
Theorem listing_fails_without_a_response (rt : Runtime) (c : Client) (ctx : Context.t)
    (w : World) :
  (forall req e,
      newRequest rt c "GET" (searchEndpoint c) None = Ok req ->
      backend w (sent w) req = Err e ->
      fst (ListTestCases rt c w)
      = Err (Wrapf "failed to fetch test cases" (Wrapf "failed to make request" e)) /\
      readouts (snd (ListTestCases rt c w)) = readouts w /\
      Reply.Code (fst (getTestCases rt c ctx w)) = 500%Z) /\
  (forall e,
      newRequest rt c "GET" (searchEndpoint c) None = Err e ->
      fst (ListTestCases rt c w) = Err (Wrapf "failed to fetch test cases" e) /\
      snd (ListTestCases rt c w) = w /\
      Reply.Code (fst (getTestCases rt c ctx w)) = 500%Z).
Proof.
  split.
  - intros req e Hbuild Hback.
    assert (ListTestCases rt c w
            = (Err (Wrapf "failed to fetch test cases" (Wrapf "failed to make request" e)),
               snd (Do req w))) as Hrun.
    { rewrite ListTestCases_run, Hbuild. cbv zeta. rewrite Hback. reflexivity. }
    unfold getTestCases, mbind, M_bind. rewrite Hrun. repeat split.
  - intros e Hbuild.
    assert (ListTestCases rt c w = (Err (Wrapf "failed to fetch test cases" e), w)) as Hrun.
    { rewrite ListTestCases_run, Hbuild. reflexivity. }
    unfold getTestCases, mbind, M_bind. rewrite Hrun. repeat split.
Qed.

Lemma listing_fails_without_a_response_witness :
  isDemoCredentials demoClient = true /\
  Reply.Code (fst (getTestCases exampleRuntime demoClient (Context.mk [] "")
                     (worldAt 1700000000%Z unreachable))) = 500%Z.
Proof.
  split; [reflexivity |].
  destruct (listing_fails_without_a_response exampleRuntime demoClient (Context.mk [] "")
              (worldAt 1700000000%Z unreachable)) as (Htransport & _).
  edestruct Htransport as (_ & _ & Hcode); [reflexivity | reflexivity |].
  exact Hcode.
Defined.

(* ------------------------------------------------------------------ *)
(** ** Which validation answers a bad POST *)

Ltac run_handler :=
  unfold mbind, M_bind, mret, M_ret;
  repeat match goal with
    | |- context [CreateTestCase ?rt ?c ?tc ?w] =>
        destruct (CreateTestCase rt c tc w) as [[?created | ?e] ?w']
    | |- context [CreateTestExecution ?rt ?c ?te ?w] =>
        destruct (CreateTestExecution rt c te w) as [[?created | ?e] ?w']
    end;
  cbn.

(** X12: POST /api/testcases is answered 400 exactly when the body does not
    decode or decodes to a test case with an empty summary.  The 400 reply
    always reads "Invalid request body": the empty summary is caught by the
    binding of the body, and the handler's own reply "Summary is required" is
    never given. *)
Theorem createTestCase_bad_request (rt : Runtime) (jiraClient : Client)
    (ctx : Context.t) (w : World) :
  let out := createTestCase rt jiraClient ctx w in
  (Reply.Code (fst out) = 400%Z <->
   (exists e, Decode_TestCase rt (Context.Body ctx) = Err e) \/
   (exists tc, Decode_TestCase rt (Context.Body ctx) = Ok tc /\ TestCase.Summary tc = "")) /\
  (Reply.Code (fst out) = 400%Z ->
   assoc "error" (Reply.Obj (fst out)) = Some (AString "Invalid request body") /\
   snd out = w) /\
  assoc "error" (Reply.Obj (fst out)) <> Some (AString "Summary is required").
Proof.
  cbv zeta. unfold createTestCase, ShouldBindJSON, validate_TestCase.
  destruct (Decode_TestCase rt (Context.Body ctx)) as [tc | e] eqn:Hdecode.
  - destruct (String.eqb (TestCase.Summary tc) "") eqn:Hsummary; cbn.
    + apply String.eqb_eq in Hsummary.
      repeat split; eauto; discriminate.
    + rewrite Hsummary. apply String.eqb_neq in Hsummary.
      run_handler; (repeat split; try discriminate);
        intros [[e' He'] | (tc' & Htc' & Hempty)]; congruence.
  - cbn. repeat split; eauto; discriminate.
Qed.

Lemma createTestCase_bad_request_witness :
  let out := createTestCase exampleRuntime realClient (Context.mk [] "{}")
               (worldAt 1700000000%Z unreachable) in
  assoc "error" (Reply.Obj (fst out)) = Some (AString "Invalid request body") /\
  snd out = worldAt 1700000000%Z unreachable.
Proof.
  destruct (createTestCase_bad_request exampleRuntime realClient (Context.mk [] "{}")
              (worldAt 1700000000%Z unreachable)) as (Hcode & Hreply & _).
  apply Hreply. apply Hcode. right. exists TestCase.zero. split; reflexivity.
Defined.

(** X13: POST /api/testexecutions is answered 400 exactly when the body does
    not decode, or decodes to an execution whose summary is empty or which
    has no test case.  The reply reads "At least one test case is required"
    exactly when the summary is present and the list of test cases is given
    and empty; in every other case it reads "Invalid request body".  No
    request reaches the backend. *)
Theorem createTestExecution_bad_request (rt : Runtime) (jiraClient : Client)
    (ctx : Context.t) (w : World) :
  let out := createTestExecution rt jiraClient ctx w in
  let error := assoc "error" (Reply.Obj (fst out)) in
  (Reply.Code (fst out) = 400%Z <->
   (exists e, Decode_TestExecution rt (Context.Body ctx) = Err e) \/
   (exists te, Decode_TestExecution rt (Context.Body ctx) = Ok te /\
               (TestExecution.Summary te = "" \/ len (TestExecution.TestCases te) = 0))) /\
  (error = Some (AString "At least one test case is required") <->
   exists te, Decode_TestExecution rt (Context.Body ctx) = Ok te /\
              TestExecution.Summary te <> "" /\
              TestExecution.TestCases te = Some []) /\
  (Reply.Code (fst out) = 400%Z ->
   (error = Some (AString "At least one test case is required") \/
    error = Some (AString "Invalid request body")) /\
   snd out = w).
Proof.
  cbv zeta. unfold createTestExecution, ShouldBindJSON, validate_TestExecution.
  destruct (Decode_TestExecution rt (Context.Body ctx)) as [te | e] eqn:Hdecode.
  - destruct (String.eqb (TestExecution.Summary te) "") eqn:Hsummary;
      destruct (TestExecution.TestCases te) as [[| k ks] |] eqn:Hcases;
      cbn; rewrite ?Hsummary, ?Hcases; cbn;
      first [apply String.eqb_eq in Hsummary | apply String.eqb_neq in Hsummary];
      run_handler;
      repeat match goal with
        | |- _ /\ _ => split
        | |- _ <-> _ => split
        | |- _ -> _ => intros ?
        end;
      repeat match goal with
        | Hex : _ \/ _ |- _ => destruct Hex
        | Hex : exists _, _ |- _ => destruct Hex
        | Hex : _ /\ _ |- _ => destruct Hex
        | Heq : Ok _ = Ok _ |- _ => injection Heq as <-
        | Heq : Ok _ = Err _ |- _ => discriminate Heq
        end;
      try rewrite Hcases in *; cbn in *;
      try congruence; try discriminate; try lia;
      solve [ reflexivity
            | left; reflexivity
            | right; reflexivity
            | right; exists te; rewrite ?Hcases; cbn; auto
            | exists te; auto ].
  - cbn. repeat split; eauto; try discriminate.
    intros (te & Hte & _). discriminate Hte.
Qed.

Lemma createTestExecution_bad_request_witness :
  assoc "error"
    (Reply.Obj (fst (createTestExecution exampleRuntime realClient
                       (Context.mk [] emptySprintBody)
                       (worldAt 1700000000%Z unreachable))))
  = Some (AString "At least one test case is required").
Proof.
  destruct (createTestExecution_bad_request exampleRuntime realClient
              (Context.mk [] emptySprintBody) (worldAt 1700000000%Z unreachable))
    as (_ & Hmessage & _).
  apply Hmessage. exists emptySprint. repeat split. discriminate.
Defined.

(* ------------------------------------------------------------------ *)
(** ** What a test case keeps on its way through the issue model *)

(** X14: converting the creation request of a test case back, as the issue
    the backend would hold under some id and key, keeps the summary, the
    description, the priority and the labels.  The status, components, test
    type, reporter, assignee, dates and custom fields are not carried: they
    come back as zero values. *)
Theorem payload_round_trip (c : Client) (tc : TestCase) (id key : string) :
  issueToTestCase (JiraIssue.mk id key (CreateIssueRequest.Fields (testCaseCreateReq c tc)))
  = TestCase.mk id key (TestCase.Summary tc) (TestCase.Description tc) ""
      (TestCase.Priority tc) (TestCase.Labels tc) None "" zeroTime zeroTime "" "" None.
Proof.
  unfold issueToTestCase. cbn [JiraIssue.Fields JiraIssue.ID JiraIssue.Key].
  rewrite testCaseCreateReq_fields. reflexivity.
Qed.

(** X15: what [CreateTestCase] sends depends on the summary, the
    description, the priority and the labels of the test case and on nothing
    else of it; what [CreateTestExecution] sends depends on the summary and
    the description only.  Two inputs that agree on these lead to the same
    requests. *)
Theorem unsent_fields_do_not_matter (rt : Runtime) (c : Client) (w : World) :
  (forall tc tc',
      TestCase.Summary tc = TestCase.Summary tc' ->
      TestCase.Description tc = TestCase.Description tc' ->
      TestCase.Priority tc = TestCase.Priority tc' ->
      TestCase.Labels tc = TestCase.Labels tc' ->
      sent (snd (CreateTestCase rt c tc w)) = sent (snd (CreateTestCase rt c tc' w))) /\
  (forall te te',
      TestExecution.Summary te = TestExecution.Summary te' ->
      TestExecution.Description te = TestExecution.Description te' ->
      sent (snd (CreateTestExecution rt c te w))
      = sent (snd (CreateTestExecution rt c te' w))).
Proof.
  split.
  - intros tc tc' Hsummary Hdescription Hpriority Hlabels.
    rewrite !CreateTestCase_sent.
    replace (testCaseCreateReq c tc') with (testCaseCreateReq c tc); [reflexivity |].
    unfold testCaseCreateReq. rewrite Hsummary, Hdescription, Hpriority, Hlabels.
    reflexivity.
  - intros te te' Hsummary Hdescription.
    rewrite !CreateTestExecution_sent.
    replace (testExecutionCreateReq c te') with (testExecutionCreateReq c te); [reflexivity |].
    unfold testExecutionCreateReq. rewrite Hsummary, Hdescription. reflexivity.
Qed.

Lemma unsent_fields_do_not_matter_witness :
  let w := worldAt 1700000000%Z (answering 201 "{}") in
  sent (snd (CreateTestExecution exampleRuntime realClient sprintRun w))
  = sent (snd (CreateTestExecution exampleRuntime realClient emptySprint w)).
Proof.
  intros w.
  destruct (unsent_fields_do_not_matter exampleRuntime realClient w) as (_ & Hexec).
  apply Hexec; reflexivity.
Defined.

(* ------------------------------------------------------------------ *)
(** ** The base URL of a new client *)

Lemma string_length_append (s t : string) :
  String.length (s +:+ t) = String.length s + String.length t.
Proof.
  induction s as [| a s IH]; simpl; [reflexivity | f_equal; exact IH].
Qed.

Lemma substring_all (s : string) : substring 0 (String.length s) s = s.
Proof.
  induction s as [| a s IH]; simpl; [reflexivity | f_equal; exact IH].
Qed.

Lemma substring_append_prefix (s t : string) :
  substring 0 (String.length s) (s +:+ t) = s.
Proof.
  induction s as [| a s IH]; simpl.
  - destruct t; reflexivity.
  - f_equal. exact IH.
Qed.

Lemma substring_append_suffix (s t : string) :
  substring (String.length s) (String.length t) (s +:+ t) = t.
Proof.
  induction s as [| a s IH]; simpl; [apply substring_all | exact IH].
Qed.

Lemma HasSuffix_append (s suffix : string) : HasSuffix (s +:+ suffix) suffix = true.
Proof.
  unfold HasSuffix. rewrite string_length_append.
  replace (String.length s + String.length suffix - String.length suffix)
    with (String.length s) by lia.
  rewrite substring_append_suffix, String.eqb_refl, andb_true_r.
  apply Nat.leb_le. lia.
Qed.

Lemma TrimSuffix_append (s suffix : string) : TrimSuffix (s +:+ suffix) suffix = s.
Proof.
  unfold TrimSuffix. rewrite HasSuffix_append, string_length_append.
  replace (String.length s + String.length suffix - String.length suffix)
    with (String.length s) by lia.
  apply substring_append_prefix.
Qed.

(** X16: [NewClient] removes one trailing slash from the base URL, keeps a
    base URL that does not end in a slash as it is, and takes the user name,
    the token and the project key unchanged.  So a base URL given with or
    without its final slash leads to the same client, and to request URLs
    with a single slash before "rest". *)
Theorem NewClient_trims_one_slash (baseURL username apiToken projectKey : string) :
  NewClient (baseURL +:+ "/") username apiToken projectKey
  = Client.mk baseURL username apiToken projectKey /\
  (HasSuffix baseURL "/" = false ->
   NewClient baseURL username apiToken projectKey
   = Client.mk baseURL username apiToken projectKey) /\
  Client.Username (NewClient baseURL username apiToken projectKey) = username /\
  Client.APIToken (NewClient baseURL username apiToken projectKey) = apiToken /\
  Client.ProjectKey (NewClient baseURL username apiToken projectKey) = projectKey.
Proof.
  unfold NewClient. rewrite TrimSuffix_append.
  repeat split. intros Hslash. unfold TrimSuffix. rewrite Hslash. reflexivity.
Qed.

Lemma NewClient_trims_one_slash_witness :
  NewClient "https://jira.example.com" "alice@example.com" "s3cret" "PROJ" = realClient.
Proof.
  destruct (NewClient_trims_one_slash "https://jira.example.com" "alice@example.com"
              "s3cret" "PROJ") as (Hslash & Hplain & _).
  rewrite (Hplain eq_refl). symmetry. exact Hslash.
Defined.

(* ------------------------------------------------------------------ *)
(** ** A loaded configuration *)

(** X17: [LoadConfig] succeeds exactly when, after the .env loader ran, the
    four JIRA variables are all set to non-empty values.  The configuration
    then holds exactly those values, and as port the value of PORT, or "8080"
    when PORT is unset or empty: no field of a loaded configuration is empty.
    When it fails, the error names a required variable that is unset or
    empty. *)
Theorem LoadConfig_result (rt : Runtime) (env0 : gmap string string) :
  let env := fst (godotenv_Load rt env0) in
  let required := ["JIRA_BASE_URL"; "JIRA_USERNAME"; "JIRA_API_TOKEN"; "JIRA_PROJECT_KEY"] in
  ((exists config, fst (LoadConfig rt env0) = Ok config) <->
   forall name, In name required -> Getenv env name <> "") /\
  (forall config,
      fst (LoadConfig rt env0) = Ok config ->
      config = Config.mk (Getenv env "JIRA_BASE_URL") (Getenv env "JIRA_USERNAME")
                 (Getenv env "JIRA_API_TOKEN") (Getenv env "JIRA_PROJECT_KEY")
                 (if String.eqb (Getenv env "PORT") "" then "8080" else Getenv env "PORT") /\
      Config.JiraBaseURL config <> "" /\ Config.JiraUsername config <> "" /\
      Config.JiraAPIToken config <> "" /\ Config.JiraProjectKey config <> "" /\
      Config.Port config <> "") /\
  (forall e,
      fst (LoadConfig rt env0) = Err e ->
      exists name,
        In name required /\ Getenv env name = "" /\
        e = Errorf (name +:+ " is required")).
Proof.
  cbv zeta. unfold LoadConfig.
  destruct (godotenv_Load rt env0) as [env loadErr]. cbn [fst].
  unfold configFromEnv, getEnvOrDefault.
  cbn [Config.JiraBaseURL Config.JiraUsername Config.JiraAPIToken Config.JiraProjectKey].
  destruct (String.eqb (Getenv env "JIRA_BASE_URL") "") eqn:Hurl;
    destruct (String.eqb (Getenv env "JIRA_USERNAME") "") eqn:Huser;
    destruct (String.eqb (Getenv env "JIRA_API_TOKEN") "") eqn:Htoken;
    destruct (String.eqb (Getenv env "JIRA_PROJECT_KEY") "") eqn:Hproject;
    cbn [negb]; rewrite ?String.eqb_refl, ?Hurl, ?Huser, ?Htoken, ?Hproject;
    repeat match goal with
      | Heq : String.eqb _ _ = true |- _ => apply String.eqb_eq in Heq
      | Heq : String.eqb _ _ = false |- _ => apply String.eqb_neq in Heq
      end;
    (split; [split | split]).
  all: try (intros [config Hconfig]; discriminate Hconfig).
  all: try (intros config Hconfig; discriminate Hconfig).
  all: try (intros e He; discriminate He).
  all: try (intros Hall; exfalso;
            first [ apply (Hall "JIRA_BASE_URL"); [cbn; tauto | assumption]
                  | apply (Hall "JIRA_USERNAME"); [cbn; tauto | assumption]
                  | apply (Hall "JIRA_API_TOKEN"); [cbn; tauto | assumption]
                  | apply (Hall "JIRA_PROJECT_KEY"); [cbn; tauto | assumption] ]).
  all: try (intros e He; injection He as <-;
            first [ exists "JIRA_BASE_URL"; split; [cbn; tauto | split; [assumption | reflexivity]]
                  | exists "JIRA_USERNAME"; split; [cbn; tauto | split; [assumption | reflexivity]]
                  | exists "JIRA_API_TOKEN"; split; [cbn; tauto | split; [assumption | reflexivity]]
                  | exists "JIRA_PROJECT_KEY"; split; [cbn; tauto | split; [assumption | reflexivity]] ]).
  - intros _ name Hname. cbn in Hname.
    destruct Hname as [<- | [<- | [<- | [<- | []]]]]; assumption.
  - intros _. eexists. reflexivity.
  - intros config Hconfig. injection Hconfig as <-. cbn.
    destruct (String.eqb (Getenv env "PORT") "") eqn:Hport; cbn;
      repeat split; try assumption; try discriminate.
    apply String.eqb_neq. exact Hport.
Qed.

Lemma LoadConfig_result_witness :
  exists config,
    fst (LoadConfig exampleRuntime completeEnv) = Ok config /\
    Config.JiraUsername config = "alice@example.com" /\
    Config.Port config = "8080".
Proof.
  destruct (LoadConfig_result exampleRuntime completeEnv) as (Hok & Hfields & _).
  cbv zeta in Hok, Hfields.
  destruct (proj2 Hok) as [config Hconfig].
  { intros name Hname. cbn in Hname.
    destruct Hname as [<- | [<- | [<- | [<- | []]]]]; vm_compute; discriminate. }
  exists config. split; [exact Hconfig |].
  destruct (Hfields config Hconfig) as (-> & _). split; reflexivity.
Defined.

(** X18: [ValidateConfig] writes its demo-credentials warning exactly when
    the client that [main] builds from the same configuration treats its
    credentials as demo credentials: user name "demo_user" or the
    placeholder token.  Apart from the warning it writes the base URL, the
    project key and the port. *)
Theorem ValidateConfig_warns_in_demo_mode (config : Config) :
  let lines := ValidateConfig config in
  (In "⚠️  WARNING: You are using demo credentials!" lines <->
   isDemoCredentials (mainClient config) = true) /\
  (length lines = if isDemoCredentials (mainClient config) then 7 else 4) /\
  In ("   Jira Base URL: " +:+ Config.JiraBaseURL config) lines /\
  In ("   Jira Project Key: " +:+ Config.JiraProjectKey config) lines /\
  In ("   Server Port: " +:+ Config.Port config) lines.
Proof.
  cbv zeta. unfold ValidateConfig, isDemoCredentials, mainClient, NewClient.
  cbn [Client.Username Client.APIToken].
  destruct (String.eqb (Config.JiraUsername config) "demo_user"
            || String.eqb (Config.JiraAPIToken config) "demo_token_replace_with_actual").
  - repeat split; cbn; tauto.
  - repeat split; try (cbn; tauto); try discriminate.
    cbn. intros [Habs | [Habs | [Habs | [Habs | []]]]]; discriminate Habs.
Qed.

Lemma ValidateConfig_warns_in_demo_mode_witness :
  In "⚠️  WARNING: You are using demo credentials!" (ValidateConfig tokenOnlyConfig).
Proof.
  destruct (ValidateConfig_warns_in_demo_mode tokenOnlyConfig) as (Hwarns & _).
  apply Hwarns. reflexivity.
Defined.

(* ------------------------------------------------------------------ *)
(** ** GET /api/testexecutions/:key, and the members of a creation body *)

(** X19: the handler of GET /api/testexecutions/:key replies 200 with the
    entity the client returned and 500 with the client's error otherwise.
    Under demo credentials it replies 200 for every key, with an execution
    carrying that key, and no request is sent. *)
Theorem getTestExecution_reply (rt : Runtime) (jiraClient : Client) (ctx : Context.t)
    (w : World) :
  let key := Context.Param ctx "key" in
  let out := getTestExecution rt jiraClient ctx w in
  (forall found,
      fst (GetTestExecution rt jiraClient key w) = Ok found ->
      fst out = Reply.mk 200
                  [ ("testExecution", ATestExecution found);
                    ("message", AString "Test execution retrieved successfully") ]) /\
  (forall e,
      fst (GetTestExecution rt jiraClient key w) = Err e ->
      fst out = Reply.mk 500
                  [ ("error", AString "Failed to fetch test execution");
                    ("details", AErrorText e) ]) /\
  snd out = snd (GetTestExecution rt jiraClient key w) /\
  (isDemoCredentials jiraClient = true ->
   exists found,
     fst out = Reply.mk 200
                 [ ("testExecution", ATestExecution found);
                   ("message", AString "Test execution retrieved successfully") ] /\
     TestExecution.Key found = key /\
     sent (snd out) = sent w).
Proof.
  cbv zeta. unfold getTestExecution, mbind, M_bind.
  split; [| split; [| split]].
  - intros found Hfound.
    destruct (GetTestExecution rt jiraClient (Context.Param ctx "key") w) as [r w'].
    cbn in Hfound. subst r. reflexivity.
  - intros e He.
    destruct (GetTestExecution rt jiraClient (Context.Param ctx "key") w) as [r w'].
    cbn in He. subst r. reflexivity.
  - destruct (GetTestExecution rt jiraClient (Context.Param ctx "key") w) as [[found | e] w'];
      reflexivity.
  - intros Hdemo. unfold GetTestExecution. rewrite Hdemo. cbn.
    eexists. split; [reflexivity |]. split; reflexivity.
Qed.

Lemma getTestExecution_reply_witness :
  exists found,
    fst (getTestExecution exampleRuntime demoClient (Context.mk [("key", "EXEC-7")] "")
           (worldAt 1700000000%Z unreachable))
    = Reply.mk 200
        [ ("testExecution", ATestExecution found);
          ("message", AString "Test execution retrieved successfully") ] /\
    TestExecution.Key found = "EXEC-7".
Proof.
  destruct (getTestExecution_reply exampleRuntime demoClient
              (Context.mk [("key", "EXEC-7")] "") (worldAt 1700000000%Z unreachable))
    as (_ & _ & _ & Hdemo).
  destruct (Hdemo eq_refl) as (found & Hout & Hkey & _).
  exists found. split; [exact Hout | exact Hkey].
Defined.

(** X20: the members of the "fields" object in the body [CreateTestCase]
    sends are, in this order: summary; description, when it is not empty;
    issuetype, project, priority, status, reporter and assignee, always;
    labels, when there is at least one.  There is never a components
    member. *)
Theorem testCase_payload_members (c : Client) (tc : TestCase) :
  exists members,
    marshal_CreateIssueRequest (testCaseCreateReq c tc)
    = JObject [("fields", JObject members)] /\
    map fst members =
      (["summary"]
       ++ (if String.eqb (TestCase.Description tc) "" then [] else ["description"])
       ++ ["issuetype"; "project"; "priority"; "status"; "reporter"; "assignee"]
       ++ (if (len (TestCase.Labels tc) =? 0)%nat then [] else ["labels"]))%list.
Proof.
  unfold marshal_CreateIssueRequest. rewrite testCaseCreateReq_fields.
  eexists. split; [reflexivity |].
  unfold marshal_IssueFields, omitempty_string, omitempty_slice.
  cbn [IssueFields.Description IssueFields.Labels].
  destruct (String.eqb (TestCase.Description tc) "");
    destruct (TestCase.Labels tc) as [[| label labels] |]; reflexivity.
Qed.
